(** * The Q&A front end (src/frontend/src/App.js): a shallow embedding

    The source file holds two near-duplicate React components: the
    "ImmigrantConnect" variant (lines 1-839) and the "QA Platform" variant
    (lines 840-1523).  Both keep their state in [useState] cells, talk to the
    backend through one helper, [apiRequest], and react to user actions in
    [async] handlers.

    The embedding follows the JavaScript closely:
    - strings are sequences of UTF-16 code units;
    - values coming from the backend are dynamically typed ([value]);
    - a handler is a computation in a monad of state (the [useState] cells,
      the [localStorage] entry and the backend), exceptions ([throw],
      [try]/[catch]) and a trace of observable events (HTTP requests,
      [alert], [console.error], [preventDefault]);
    - a handler reads the state through the closure of the render that
      created it and writes to the live cells, as React does. *)

From Stdlib Require Import String Ascii.
From Stdlib Require Import List NArith ZArith Bool Lia.
Import ListNotations.

Local Open Scope N_scope.

(* ================================================================== *)
(** ** JavaScript strings *)

(** A string is its sequence of UTF-16 code units. *)
Definition jsstring := list N.

(** Literals of the source, all ASCII. *)
Definition js (s : string) : jsstring :=
  List.map N_of_ascii (list_ascii_of_string s).
Arguments js : simpl never.

Fixpoint jsstring_eqb (a b : jsstring) : bool :=
  match a, b with
  | [], [] => true
  | x :: a', y :: b' => (x =? y) && jsstring_eqb a' b'
  | _, _ => false
  end.

(** WhiteSpace and LineTerminator of ECMAScript, the code units that
    [String.prototype.trim] strips. *)
Definition is_white_space (c : N) : bool :=
  (c =? 0x09) || (c =? 0x0A) || (c =? 0x0B) || (c =? 0x0C) || (c =? 0x0D)
  || (c =? 0x20) || (c =? 0xA0) || (c =? 0x1680)
  || ((0x2000 <=? c) && (c <=? 0x200A))
  || (c =? 0x2028) || (c =? 0x2029) || (c =? 0x202F) || (c =? 0x205F)
  || (c =? 0x3000) || (c =? 0xFEFF).

Fixpoint trimStart (s : jsstring) : jsstring :=
  match s with
  | c :: s' => if is_white_space c then trimStart s' else s
  | [] => []
  end.

Definition trimEnd (s : jsstring) : jsstring := rev (trimStart (rev s)).

(** [s.trim()] *)
Definition trim (s : jsstring) : jsstring := trimEnd (trimStart s).

(** [s.split(sep)] for a separator of one code unit.  The empty string
    splits into one empty piece. *)
Fixpoint split (sep : N) (s : jsstring) : list jsstring :=
  match s with
  | [] => [[]]
  | c :: s' =>
      if c =? sep then [] :: split sep s'
      else match split sep s' with
           | p :: ps => (c :: p) :: ps
           | [] => [[c]]
           end
  end.

(** [pieces.join(sep)] *)
Fixpoint join (sep : jsstring) (pieces : list jsstring) : jsstring :=
  match pieces with
  | [] => []
  | [p] => p
  | p :: ps => p ++ sep ++ join sep ps
  end.

Definition comma : N := 0x2C.

(** The decimal digits of a natural number. *)
Fixpoint digits (d : Decimal.uint) : jsstring :=
  match d with
  | Decimal.Nil => []
  | Decimal.D0 d' => 0x30 :: digits d'
  | Decimal.D1 d' => 0x31 :: digits d'
  | Decimal.D2 d' => 0x32 :: digits d'
  | Decimal.D3 d' => 0x33 :: digits d'
  | Decimal.D4 d' => 0x34 :: digits d'
  | Decimal.D5 d' => 0x35 :: digits d'
  | Decimal.D6 d' => 0x36 :: digits d'
  | Decimal.D7 d' => 0x37 :: digits d'
  | Decimal.D8 d' => 0x38 :: digits d'
  | Decimal.D9 d' => 0x39 :: digits d'
  end.

Definition N_toString (n : N) : jsstring := digits (N.to_uint n).

(* ------------------------------------------------------------------ *)
(** *** encodeURIComponent *)

Definition is_uri_unescaped (c : N) : bool :=
  ((0x41 <=? c) && (c <=? 0x5A)) || ((0x61 <=? c) && (c <=? 0x7A))
  || ((0x30 <=? c) && (c <=? 0x39))
  || existsb (N.eqb c) (js "-_.!~*'()").

Definition hex_digit (d : N) : N :=
  if d <? 10 then 0x30 + d else 0x41 + (d - 10).

(** ["%XX"] for one octet. *)
Definition percent (octet : N) : jsstring :=
  [0x25; hex_digit (octet / 16); hex_digit (octet mod 16)].

(** The UTF-8 octets of a code point. *)
Definition utf8 (cp : N) : list N :=
  if cp <? 0x80 then [cp]
  else if cp <? 0x800 then [0xC0 + cp / 64; 0x80 + cp mod 64]
  else if cp <? 0x10000 then
    [0xE0 + cp / 4096; 0x80 + (cp / 64) mod 64; 0x80 + cp mod 64]
  else
    [0xF0 + cp / 262144; 0x80 + (cp / 4096) mod 64;
     0x80 + (cp / 64) mod 64; 0x80 + cp mod 64].

Definition is_lead_surrogate (c : N) : bool := (0xD800 <=? c) && (c <=? 0xDBFF).
Definition is_trail_surrogate (c : N) : bool := (0xDC00 <=? c) && (c <=? 0xDFFF).

Definition escape (cp : N) : jsstring := concat (List.map percent (utf8 cp)).

(** [encodeURIComponent(s)]; [None] stands for the [URIError] raised on an
    unpaired surrogate. *)
Fixpoint encodeURIComponent (s : jsstring) : option jsstring :=
  match s with
  | [] => Some []
  | c :: s' =>
      if is_uri_unescaped c then option_map (cons c) (encodeURIComponent s')
      else if is_trail_surrogate c then None
      else if is_lead_surrogate c then
        match s' with
        | d :: s'' =>
            if is_trail_surrogate d then
              option_map
                (app (escape ((c - 0xD800) * 0x400 + (d - 0xDC00) + 0x10000)))
                (encodeURIComponent s'')
            else None
        | [] => None
        end
      else option_map (app (escape c)) (encodeURIComponent s')
  end.

(* ================================================================== *)
(** ** JavaScript values *)

(** The values the component handles: what [JSON.parse] produces, plus
    [undefined].  Numbers are restricted to integers; the component never
    computes with a number, it only tests one for truthiness or prints it. *)
#[warnings="-register-all"]
Inductive value : Type :=
| VUndefined
| VNull
| VBool (b : bool)
| VNum (n : Z)
| VStr (s : jsstring)
| VArr (items : list value)
| VObj (props : list (jsstring * value)).

(** ToBoolean *)
Definition truthy (v : value) : bool :=
  match v with
  | VUndefined | VNull => false
  | VBool b => b
  | VNum n => negb (n =? 0)%Z
  | VStr s => match s with [] => false | _ => true end
  | VArr _ | VObj _ => true
  end.

Definition Z_toString (n : Z) : jsstring :=
  match n with
  | Z0 => js "0"
  | Zpos p => N_toString (Npos p)
  | Zneg p => js "-" ++ N_toString (Npos p)
  end.

(** ToString, as used by template literals and by [new Error(x)].  An
    integer prints in decimal (as JavaScript does below 10^21), an array
    joins its elements with commas, an object prints as
    ["[object Object]"]. *)
Fixpoint toString (v : value) : jsstring :=
  match v with
  | VUndefined => js "undefined"
  | VNull => js "null"
  | VBool true => js "true"
  | VBool false => js "false"
  | VNum n => Z_toString n
  | VStr s => s
  | VArr items =>
      let item x :=
        match x with VUndefined | VNull => [] | _ => toString x end in
      (fix go (l : list value) : jsstring :=
         match l with
         | [] => []
         | [x] => item x
         | x :: l' => item x ++ [comma] ++ go l'
         end) items
  | VObj _ => js "[object Object]"
  end.

Fixpoint lookup (k : jsstring) (props : list (jsstring * value)) : value :=
  match props with
  | [] => VUndefined
  | (k', v) :: rest => if jsstring_eqb k k' then v else lookup k rest
  end.

(** [v.key] for the keys the component reads ([detail], [access_token],
    [response], [id], [title]): nothing on [undefined] and [null], where
    JavaScript raises a [TypeError]; the property of an object; [undefined]
    on anything else. *)
Definition member (v : value) (key : jsstring) : option value :=
  match v with
  | VUndefined | VNull => None
  | VObj props => Some (lookup key props)
  | _ => Some VUndefined
  end.

(** [Object.is(a, b)], by which React decides whether a cell changed.
    Arrays and objects are compared by content: a cell that no handler wrote
    still holds its object, and [token], the one cell compared, is only
    written with something else than [null] by [handleAuth], which the
    authentication screen offers when [token] holds no object. *)
Fixpoint Object_is (a b : value) : bool :=
  match a, b with
  | VUndefined, VUndefined => true
  | VNull, VNull => true
  | VBool x, VBool y => Bool.eqb x y
  | VNum x, VNum y => (x =? y)%Z
  | VStr x, VStr y => jsstring_eqb x y
  | VArr x, VArr y =>
      (fix items (l l' : list value) : bool :=
         match l, l' with
         | [], [] => true
         | u :: m, u' :: m' => Object_is u u' && items m m'
         | _, _ => false
         end) x y
  | VObj x, VObj y =>
      (fix props (l l' : list (jsstring * value)) : bool :=
         match l, l' with
         | [], [] => true
         | (k, u) :: m, (k', u') :: m' =>
             jsstring_eqb k k' && Object_is u u' && props m m'
         | _, _ => false
         end) x y
  | _, _ => false
  end.

(** Object spread [{...a, ...b}]: a property of [b] overrides the property
    of [a] with the same key, in place; the other properties of [b] follow. *)
Definition has_key {A} (k : jsstring) (o : list (jsstring * A)) : bool :=
  existsb (fun q => jsstring_eqb k (fst q)) o.

Definition spread {A} (a b : list (jsstring * A)) : list (jsstring * A) :=
  List.map
    (fun p =>
       match find (fun q => jsstring_eqb (fst p) (fst q)) b with
       | Some q => (fst p, snd q)
       | None => p
       end) a
  ++ filter (fun q => negb (has_key (fst q) a)) b.

(* ================================================================== *)
(** ** The component's state *)

(** The two components of the file. *)
Inductive Variant := ImmigrantConnect | QAPlatform.

(** A chat message [{ text, sender }]. *)
Record ChatMessage := { text : value; sender : jsstring }.

(** A plain object, as written by an object literal. *)
Definition obj := list (jsstring * value).

(** The [useState] cells of [App].  The three form cells only ever hold
    object literals.  [selectedCategory] exists in the ImmigrantConnect
    component only, and nothing reads it. *)
Record AppState := {
  questions : value;
  currentQuestion : value;
  answers : value;
  user : value;
  token : value;
  authMode : jsstring;
  loading : bool;
  isChatOpen : bool;
  chatMessages : list ChatMessage;
  chatInput : jsstring;
  searchQuery : jsstring;
  selectedCategory : jsstring;
  loginData : obj;
  registerData : obj;
  questionData : obj;
  answerContent : jsstring
}.

Definition str (s : string) : value := VStr (js s).

Definition empty_loginData : obj :=
  [(js "username", str ""); (js "password", str "")].

Definition empty_registerData (v : Variant) : obj :=
  match v with
  | ImmigrantConnect =>
      [(js "username", str ""); (js "email", str "");
       (js "password", str ""); (js "full_name", str "");
       (js "bio", str ""); (js "origin_country", str "");
       (js "current_location", str ""); (js "immigration_status", str "")]
  | QAPlatform =>
      [(js "username", str ""); (js "email", str "");
       (js "password", str ""); (js "full_name", str "");
       (js "bio", str "")]
  end.

Definition empty_questionData (v : Variant) : obj :=
  match v with
  | ImmigrantConnect =>
      [(js "title", str ""); (js "content", str ""); (js "tags", str "");
       (js "category", str ""); (js "urgency", str "normal")]
  | QAPlatform =>
      [(js "title", str ""); (js "content", str ""); (js "tags", str "")]
  end.

Definition of_stored (o : option jsstring) : value :=
  match o with Some s => VStr s | None => VNull end.

(** The state of the first render; [stored] is
    [localStorage.getItem('token')]. *)
Definition initialState (v : Variant) (stored : option jsstring) : AppState :=
  {| questions := VArr [];
     currentQuestion := VNull;
     answers := VArr [];
     user := VNull;
     token := of_stored stored;
     authMode := js "login";
     loading := false;
     isChatOpen := false;
     chatMessages := [];
     chatInput := [];
     searchQuery := [];
     selectedCategory := js "all";
     loginData := empty_loginData;
     registerData := empty_registerData v;
     questionData := empty_questionData v;
     answerContent := [] |}.

(** What the component returns: the authentication forms when there is no
    token, otherwise the header with the question list or the open question,
    and the chat transcript when the chat panel is open.  A screen records
    the branch that is taken and the cells it draws from; the expressions of
    the markup that read inside these cells ([user?.full_name?.charAt],
    [questions.map], [question.tags.map]) are not evaluated, so a
    [MainScreen] does not say that drawing it succeeds on data of another
    shape. *)
Inductive Page :=
| QuestionList (qs : value)
| QuestionDetail (q : value) (ans : value).

Inductive Screen :=
| AuthScreen (mode : jsstring)
| MainScreen (page : Page) (chat : option (list ChatMessage)).

Definition render (s : AppState) : Screen :=
  if negb (truthy (token s)) then AuthScreen (authMode s)
  else
    MainScreen
      (if negb (truthy (currentQuestion s)) then QuestionList (questions s)
       else QuestionDetail (currentQuestion s) (answers s))
      (if isChatOpen s then Some (chatMessages s) else None).

(* ================================================================== *)
(** ** Requests, errors and events *)

(** The text [JSON.stringify(v)], kept as the value it serialises. *)
Inductive json_text := JSON_stringify (v : value).

(** The second argument of [apiRequest]. *)
Record Options := {
  method : option jsstring;
  body : option json_text;
  headers : option (list (jsstring * jsstring))
}.

Definition no_options : Options :=
  {| method := None; body := None; headers := None |}.

Definition POST (b : value) : Options :=
  {| method := Some (js "POST"); body := Some (JSON_stringify b);
     headers := None |}.

(** What [fetch] is called with. *)
Record Request := {
  url : jsstring;
  request_headers : list (jsstring * jsstring);
  request_method : option jsstring;
  request_body : option json_text
}.

(** What the component looks at in a response: [response.ok] and the value
    [response.json()] resolves to, [None] when the body is not JSON. *)
Record Response := { ok : bool; json : option value }.

Inductive FetchResult :=
| Rejected
| Resolved (r : Response).

(** Errors raised by the platform; their messages are the engine's. *)
Inductive native_error :=
| TypeError_property (base : value) (key : jsstring)
| TypeError_not_a_function (key : jsstring)
| TypeError_fetch
| SyntaxError_json
| URIError_malformed.

Inductive message_text :=
| Text (s : jsstring)
| NativeText (e : native_error).

Inductive exn :=
| Error (msg : jsstring)
| Native (e : native_error).

(** [error.message] *)
Definition message (e : exn) : message_text :=
  match e with
  | Error msg => Text msg
  | Native n => NativeText n
  end.

Inductive event :=
| PreventDefault
| Fetch (r : Request)
| Alert (m : message_text)
| ConsoleError (label : jsstring) (e : exn).

Definition is_fetch (e : event) : bool :=
  match e with Fetch _ => true | _ => false end.

Definition requests (evs : list event) : list Request :=
  flat_map (fun e => match e with Fetch r => [r] | _ => [] end) evs.

(* ------------------------------------------------------------------ *)
(** *** Writing one cell *)

Definition with_questions (x : value) (s : AppState) : AppState :=
  {| questions := x; currentQuestion := currentQuestion s; answers :=
     answers s; user := user s; token := token s; authMode := authMode s;
     loading := loading s; isChatOpen := isChatOpen s; chatMessages :=
     chatMessages s; chatInput := chatInput s; searchQuery := searchQuery
     s; selectedCategory := selectedCategory s; loginData := loginData s;
     registerData := registerData s; questionData := questionData s;
     answerContent := answerContent s |}.

Definition with_currentQuestion (x : value) (s : AppState) : AppState :=
  {| questions := questions s; currentQuestion := x; answers := answers s;
     user := user s; token := token s; authMode := authMode s; loading :=
     loading s; isChatOpen := isChatOpen s; chatMessages := chatMessages
     s; chatInput := chatInput s; searchQuery := searchQuery s;
     selectedCategory := selectedCategory s; loginData := loginData s;
     registerData := registerData s; questionData := questionData s;
     answerContent := answerContent s |}.

Definition with_answers (x : value) (s : AppState) : AppState :=
  {| questions := questions s; currentQuestion := currentQuestion s;
     answers := x; user := user s; token := token s; authMode := authMode
     s; loading := loading s; isChatOpen := isChatOpen s; chatMessages :=
     chatMessages s; chatInput := chatInput s; searchQuery := searchQuery
     s; selectedCategory := selectedCategory s; loginData := loginData s;
     registerData := registerData s; questionData := questionData s;
     answerContent := answerContent s |}.

Definition with_user (x : value) (s : AppState) : AppState :=
  {| questions := questions s; currentQuestion := currentQuestion s;
     answers := answers s; user := x; token := token s; authMode :=
     authMode s; loading := loading s; isChatOpen := isChatOpen s;
     chatMessages := chatMessages s; chatInput := chatInput s; searchQuery
     := searchQuery s; selectedCategory := selectedCategory s; loginData
     := loginData s; registerData := registerData s; questionData :=
     questionData s; answerContent := answerContent s |}.

Definition with_token (x : value) (s : AppState) : AppState :=
  {| questions := questions s; currentQuestion := currentQuestion s;
     answers := answers s; user := user s; token := x; authMode :=
     authMode s; loading := loading s; isChatOpen := isChatOpen s;
     chatMessages := chatMessages s; chatInput := chatInput s; searchQuery
     := searchQuery s; selectedCategory := selectedCategory s; loginData
     := loginData s; registerData := registerData s; questionData :=
     questionData s; answerContent := answerContent s |}.

Definition with_loading (x : bool) (s : AppState) : AppState :=
  {| questions := questions s; currentQuestion := currentQuestion s;
     answers := answers s; user := user s; token := token s; authMode :=
     authMode s; loading := x; isChatOpen := isChatOpen s; chatMessages :=
     chatMessages s; chatInput := chatInput s; searchQuery := searchQuery
     s; selectedCategory := selectedCategory s; loginData := loginData s;
     registerData := registerData s; questionData := questionData s;
     answerContent := answerContent s |}.

Definition with_isChatOpen (x : bool) (s : AppState) : AppState :=
  {| questions := questions s; currentQuestion := currentQuestion s;
     answers := answers s; user := user s; token := token s; authMode :=
     authMode s; loading := loading s; isChatOpen := x; chatMessages :=
     chatMessages s; chatInput := chatInput s; searchQuery := searchQuery
     s; selectedCategory := selectedCategory s; loginData := loginData s;
     registerData := registerData s; questionData := questionData s;
     answerContent := answerContent s |}.

Definition with_chatMessages (x : list ChatMessage) (s : AppState) : AppState :=
  {| questions := questions s; currentQuestion := currentQuestion s;
     answers := answers s; user := user s; token := token s; authMode :=
     authMode s; loading := loading s; isChatOpen := isChatOpen s;
     chatMessages := x; chatInput := chatInput s; searchQuery :=
     searchQuery s; selectedCategory := selectedCategory s; loginData :=
     loginData s; registerData := registerData s; questionData :=
     questionData s; answerContent := answerContent s |}.

Definition with_chatInput (x : jsstring) (s : AppState) : AppState :=
  {| questions := questions s; currentQuestion := currentQuestion s;
     answers := answers s; user := user s; token := token s; authMode :=
     authMode s; loading := loading s; isChatOpen := isChatOpen s;
     chatMessages := chatMessages s; chatInput := x; searchQuery :=
     searchQuery s; selectedCategory := selectedCategory s; loginData :=
     loginData s; registerData := registerData s; questionData :=
     questionData s; answerContent := answerContent s |}.

Definition with_searchQuery (x : jsstring) (s : AppState) : AppState :=
  {| questions := questions s; currentQuestion := currentQuestion s;
     answers := answers s; user := user s; token := token s; authMode :=
     authMode s; loading := loading s; isChatOpen := isChatOpen s;
     chatMessages := chatMessages s; chatInput := chatInput s; searchQuery
     := x; selectedCategory := selectedCategory s; loginData := loginData
     s; registerData := registerData s; questionData := questionData s;
     answerContent := answerContent s |}.

Definition with_loginData (x : obj) (s : AppState) : AppState :=
  {| questions := questions s; currentQuestion := currentQuestion s;
     answers := answers s; user := user s; token := token s; authMode :=
     authMode s; loading := loading s; isChatOpen := isChatOpen s;
     chatMessages := chatMessages s; chatInput := chatInput s; searchQuery
     := searchQuery s; selectedCategory := selectedCategory s; loginData
     := x; registerData := registerData s; questionData := questionData s;
     answerContent := answerContent s |}.

Definition with_registerData (x : obj) (s : AppState) : AppState :=
  {| questions := questions s; currentQuestion := currentQuestion s;
     answers := answers s; user := user s; token := token s; authMode :=
     authMode s; loading := loading s; isChatOpen := isChatOpen s;
     chatMessages := chatMessages s; chatInput := chatInput s; searchQuery
     := searchQuery s; selectedCategory := selectedCategory s; loginData
     := loginData s; registerData := x; questionData := questionData s;
     answerContent := answerContent s |}.

Definition with_questionData (x : obj) (s : AppState) : AppState :=
  {| questions := questions s; currentQuestion := currentQuestion s;
     answers := answers s; user := user s; token := token s; authMode :=
     authMode s; loading := loading s; isChatOpen := isChatOpen s;
     chatMessages := chatMessages s; chatInput := chatInput s; searchQuery
     := searchQuery s; selectedCategory := selectedCategory s; loginData
     := loginData s; registerData := registerData s; questionData := x;
     answerContent := answerContent s |}.

Definition with_answerContent (x : jsstring) (s : AppState) : AppState :=
  {| questions := questions s; currentQuestion := currentQuestion s;
     answers := answers s; user := user s; token := token s; authMode :=
     authMode s; loading := loading s; isChatOpen := isChatOpen s;
     chatMessages := chatMessages s; chatInput := chatInput s; searchQuery
     := searchQuery s; selectedCategory := selectedCategory s; loginData
     := loginData s; registerData := registerData s; questionData :=
     questionData s; answerContent := x |}.

(* ================================================================== *)
(** ** The rest of the component: what is drawn *)

Definition with_authMode (x : jsstring) (s : AppState) : AppState :=
  {| questions := questions s; currentQuestion := currentQuestion s;
     answers := answers s; user := user s; token := token s; authMode :=
     x; loading := loading s; isChatOpen := isChatOpen s; chatMessages :=
     chatMessages s; chatInput := chatInput s; searchQuery := searchQuery
     s; selectedCategory := selectedCategory s; loginData := loginData s;
     registerData := registerData s; questionData := questionData s;
     answerContent := answerContent s |}.

(** The [disabled] of the "Post Question" button, lines 494 and 1226. *)
Definition post_question_disabled (v : Variant) (c : AppState) : bool :=
  match v with
  | ImmigrantConnect =>
      loading c || negb (truthy (lookup (js "category") (questionData c)))
  | QAPlatform => loading c
  end.

(** The headers of a call that passes none of its own, lines 60-64. *)
Definition standard_headers (c : AppState) : list (jsstring * jsstring) :=
  (js "Content-Type", js "application/json")
  :: if truthy (token c)
     then [(js "Authorization", js "Bearer " ++ toString (token c))]
     else [].

(** The characters that delimit the parts of a URL and of its query. *)
Definition is_url_delimiter (c : N) : bool :=
  existsb (N.eqb c) (js " #&+,/:;=?@").

(* ================================================================== *)
(** ** A scripted backend and a user *)

(** The backend answers the requests from a script, one answer each, and
    the network fails once the script is over. *)
Definition Script := list FetchResult.

Definition scripted (script : Script) (rq : Request) : Script * FetchResult :=
  match script with
  | answer :: rest => (rest, answer)
  | [] => ([], Rejected)
  end.

Definition replies (okay : bool) (payload : value) : FetchResult :=
  Resolved {| ok := okay; json := Some payload |}.

(** Nobody is signed in; the login form is filled. *)
Definition anonymous (v : Variant) : AppState :=
  with_loginData [(js "username", str "ada"); (js "password", str "pw")]
    (initialState v None).

(** Ada is signed in and looks at the question list. *)
Definition signed_in (v : Variant) : AppState :=
  with_user (VObj [(js "id", VNum 7); (js "full_name", str "Ada")])
    (initialState v (Some (js "t0k3n"))).

(** She has opened question 42. *)
Definition reading (v : Variant) : AppState :=
  with_answerContent (js "At the consulate.")
    (with_answers (VArr [])
       (with_currentQuestion
          (VObj [(js "id", VNum 42); (js "title", str "Where to apply?");
                 (js "votes", VNum 3)])
          (signed_in v))).

(** She is asking a question. *)
Definition asking (v : Variant) : AppState :=
  with_questionData
    [(js "title", str "Work permit"); (js "content", str "How long?");
     (js "tags", str "a, b"); (js "category", str "employment");
     (js "urgency", str "normal")]
    (signed_in v).

(** She has talked to the assistant and is typing again. *)
Definition chatting (v : Variant) : AppState :=
  with_chatInput (js "hello")
    (with_chatMessages
       [ {| text := str "hi"; sender := js "user" |};
         {| text := str "Welcome!"; sender := js "ai" |} ]
       (signed_in v)).

Definition searching (v : Variant) (query : string) : AppState :=
  with_searchQuery (js query) (signed_in v).

Definition question_42 : value :=
  VObj [(js "id", VNum 42); (js "title", str "Where to apply?");
        (js "votes", VNum 4)].

Definition all_questions : value := VArr [question_42].

(* ================================================================== *)
(** ** The component *)

Section App.

(** The backend is external: any state machine answering requests.
    [REACT_APP_BACKEND_URL] is the environment's override of the base URL. *)
Context {Srv : Type}.
Variable serve : Srv -> Request -> Srv * FetchResult.
Variable REACT_APP_BACKEND_URL : option jsstring.

Definition API_BASE_URL : jsstring :=
  match REACT_APP_BACKEND_URL with
  | Some u => if truthy (VStr u) then u else js "http://localhost:8001"
  | None => js "http://localhost:8001"
  end.

(** What a handler can change: the cells, the ['token'] entry of
    [localStorage], and the backend. *)
Record World := {
  app : AppState;
  localStorage_token : option jsstring;
  backend : Srv
}.

(** Where a computation ends: with a value or a thrown error, in a new
    world, having produced events. *)
Record Outcome (A : Type) := {
  result : exn + A;
  world : World;
  events : list event
}.
Arguments result {A} _.
Arguments world {A} _.
Arguments events {A} _.

Definition M (A : Type) : Type := World -> Outcome A.

Definition ret {A} (a : A) : M A :=
  fun w => {| result := inr a; world := w; events := [] |}.

Definition throw {A} (e : exn) : M A :=
  fun w => {| result := inl e; world := w; events := [] |}.

Definition bind {A B} (m : M A) (k : A -> M B) : M B :=
  fun w =>
    match m w with
    | {| result := inl e; world := w1; events := ev |} =>
        {| result := inl e; world := w1; events := ev |}
    | {| result := inr a; world := w1; events := ev |} =>
        match k a w1 with
        | {| result := r; world := w2; events := ev' |} =>
            {| result := r; world := w2; events := ev ++ ev' |}
        end
    end.

(** [try { m } catch (error) { handler }] *)
Definition try_catch {A} (m : M A) (handler : exn -> M A) : M A :=
  fun w =>
    match m w with
    | {| result := inl e; world := w1; events := ev |} =>
        match handler e w1 with
        | {| result := r; world := w2; events := ev' |} =>
            {| result := r; world := w2; events := ev ++ ev' |}
        end
    | o => o
    end.

(** A promise started now and awaited later: the computation runs, its
    rejection is kept for the [await]. *)
Definition start {A} (m : M A) : M (exn + A) :=
  fun w =>
    match m w with
    | {| result := r; world := w1; events := ev |} =>
        {| result := inr r; world := w1; events := ev |}
    end.

Definition await {A} (p : exn + A) : M A :=
  match p with
  | inl e => throw e
  | inr a => ret a
  end.

Notation "x <- m ;; k" := (bind m (fun x => k))
  (at level 61, m at next level, right associativity).
Notation "m ;; k" := (bind m (fun _ => k))
  (at level 61, right associativity).

Definition emit (e : event) : M unit :=
  fun w => {| result := inr tt; world := w; events := [e] |}.

Definition update (f : AppState -> AppState) : M unit :=
  fun w =>
    {| result := inr tt;
       world := {| app := f (app w);
                   localStorage_token := localStorage_token w;
                   backend := backend w |};
       events := [] |}.

Definition setQuestions x := update (with_questions x).
Definition setCurrentQuestion x := update (with_currentQuestion x).
Definition setAnswers x := update (with_answers x).
Definition setUser x := update (with_user x).
Definition setToken x := update (with_token x).
Definition setLoading x := update (with_loading x).
Definition setIsChatOpen x := update (with_isChatOpen x).
Definition setChatInput x := update (with_chatInput x).
Definition setSearchQuery x := update (with_searchQuery x).
Definition setLoginData x := update (with_loginData x).
Definition setRegisterData x := update (with_registerData x).
Definition setQuestionData x := update (with_questionData x).
Definition setAnswerContent x := update (with_answerContent x).

(** [setChatMessages(prev => f(prev))]: applied to the live cell. *)
Definition setChatMessages (f : list ChatMessage -> list ChatMessage) :=
  update (fun s => with_chatMessages (f (chatMessages s)) s).

Definition set_localStorage (o : option jsstring) : M unit :=
  fun w =>
    {| result := inr tt;
       world := {| app := app w; localStorage_token := o;
                   backend := backend w |};
       events := [] |}.

(** [localStorage.setItem('token', v)] stores the string of [v]. *)
Definition localStorage_setItem (v : value) : M unit :=
  set_localStorage (Some (toString v)).

(** [localStorage.removeItem('token')] *)
Definition localStorage_removeItem : M unit := set_localStorage None.

Definition preventDefault : M unit := emit PreventDefault.
Definition alert (m : message_text) : M unit := emit (Alert m).
Definition console_error (label : string) (e : exn) : M unit :=
  emit (ConsoleError (js label) e).

(** [v.key], raising the [TypeError]. *)
Definition get_prop (v : value) (key : string) : M value :=
  match member v (js key) with
  | Some x => ret x
  | None => throw (Native (TypeError_property v (js key)))
  end.

(** [v.split(',')] *)
Definition String_split (v : value) (sep : N) : M (list jsstring) :=
  match v with
  | VStr s => ret (split sep s)
  | VUndefined | VNull => throw (Native (TypeError_property v (js "split")))
  | _ => throw (Native (TypeError_not_a_function (js "split")))
  end.

(** [await fetch(url, config)]: the request reaches the backend; a network
    failure rejects. *)
Definition fetch (rq : Request) : M Response :=
  fun w =>
    let (backend', answer) := serve (backend w) rq in
    {| result := match answer with
                 | Rejected => inl (Native TypeError_fetch)
                 | Resolved r => inr r
                 end;
       world := {| app := app w; localStorage_token := localStorage_token w;
                   backend := backend' |};
       events := [Fetch rq] |}.

(** [response.json()] *)
Definition Response_json (r : Response) : M value :=
  match json r with
  | Some v => ret v
  | None => throw (Native SyntaxError_json)
  end.

(** The [config] object of [apiRequest]: the merged headers, then every
    property of [options], whose [headers] replace the merged ones. *)
Definition config_headers (c : AppState) (options : Options)
  : list (jsstring * jsstring) :=
  let merged :=
    spread
      (spread [(js "Content-Type", js "application/json")]
              (if truthy (token c)
               then [(js "Authorization", js "Bearer " ++ toString (token c))]
               else []))
      (match headers options with Some h => h | None => [] end) in
  match headers options with
  | Some h => h
  | None => merged
  end.

(** The [config] of a call, with the URL it goes to. *)
Definition config_of (c : AppState) (path : jsstring) (options : Options)
  : Request :=
  {| url := API_BASE_URL ++ path;
     request_headers := config_headers c options;
     request_method := method options;
     request_body := body options |}.

(** [apiRequest], lines 58-76 and 884-902.  [c] is the state of the render
    whose closure the call runs in. *)
Definition apiRequest (c : AppState) (path : jsstring) (options : Options)
  : M value :=
  response <- fetch (config_of c path options) ;;
  if negb (ok response) then
    error <- try_catch (Response_json response)
               (fun _ => ret (VObj [(js "detail", str "Network error")])) ;;
    detail <- get_prop error "detail" ;;
    throw (Error (toString (if truthy detail then detail
                            else str "Request failed")))
  else Response_json response.

(** [fetchUser], lines 78-87 and 904-913 *)
Definition fetchUser (c : AppState) : M unit :=
  try_catch
    (userData <- apiRequest c (js "/api/me") no_options ;;
     setUser userData)
    (fun error =>
       console_error "Failed to fetch user:" error ;;
       localStorage_removeItem ;;
       setToken VNull).

(** [fetchQuestions], lines 89-96 and 915-922 *)
Definition fetchQuestions (c : AppState) : M unit :=
  try_catch
    (questionsData <- apiRequest c (js "/api/questions") no_options ;;
     setQuestions questionsData)
    (fun error => console_error "Failed to fetch questions:" error).

(** [fetchQuestion], lines 98-109 and 924-935.  [Promise.all] starts both
    requests, in this order, before it awaits; when both fail the error of
    the first is taken as the one it rejects with. *)
Definition fetchQuestion (c : AppState) (questionId : value) : M unit :=
  try_catch
    (p1 <- start (apiRequest c (js "/api/questions/" ++ toString questionId)
                    no_options) ;;
     p2 <- start (apiRequest c (js "/api/questions/" ++ toString questionId
                                 ++ js "/answers") no_options) ;;
     questionData <- await p1 ;;
     answersData <- await p2 ;;
     setCurrentQuestion questionData ;;
     setAnswers answersData)
    (fun error => console_error "Failed to fetch question details:" error).

(** The effect of lines 49-56 and 875-882, run after a render in which
    [token] changed.  The calls are not awaited: each is run where it is
    called. *)
Definition useEffect_token (c : AppState) : M unit :=
  if truthy (token c) then
    fetchUser c ;;
    fetchQuestions c
  else
    fetchQuestions c.

(** [handleAuth], lines 111-134 and 937-957 *)
Definition handleAuth (v : Variant) (c : AppState) : M unit :=
  preventDefault ;;
  setLoading true ;;
  try_catch
    (let endpoint :=
       if jsstring_eqb (authMode c) (js "login") then js "/api/login"
       else js "/api/register" in
     let data :=
       if jsstring_eqb (authMode c) (js "login") then loginData c
       else registerData c in
     response <- apiRequest c endpoint (POST (VObj data)) ;;
     access_token <- get_prop response "access_token" ;;
     setToken access_token ;;
     access_token' <- get_prop response "access_token" ;;
     localStorage_setItem access_token' ;;
     setLoginData empty_loginData ;;
     setRegisterData (empty_registerData v))
    (fun error => alert (message error)) ;;
  setLoading false.

(** [questionData.tags.split(',').map(tag => tag.trim()).filter(tag => tag)],
    lines 142 and 965, once [questionData.tags] is known to be a string. *)
Definition tags_of (tags_field : jsstring) : list jsstring :=
  filter (fun tag => truthy (VStr tag))
         (List.map (fun tag => trim tag) (split comma tags_field)).

(** The object given to [JSON.stringify] at lines 145-151 and 968-972. *)
Definition question_body (v : Variant) (questionData : obj)
    (tags : list jsstring) : value :=
  match v with
  | ImmigrantConnect =>
      VObj [(js "title", lookup (js "title") questionData);
            (js "content", lookup (js "content") questionData);
            (js "tags", VArr (List.map VStr tags
                              ++ [lookup (js "category") questionData]));
            (js "category", lookup (js "category") questionData);
            (js "urgency", lookup (js "urgency") questionData)]
  | QAPlatform =>
      VObj [(js "title", lookup (js "title") questionData);
            (js "content", lookup (js "content") questionData);
            (js "tags", VArr (List.map VStr tags))]
  end.

(** [handleCreateQuestion], lines 136-160 and 959-981 *)
Definition handleCreateQuestion (v : Variant) (c : AppState) : M unit :=
  preventDefault ;;
  if negb (truthy (token c)) then ret tt
  else
    setLoading true ;;
    try_catch
      (pieces <- String_split (lookup (js "tags") (questionData c)) comma ;;
       let tags :=
         filter (fun tag => truthy (VStr tag))
                (List.map (fun tag => trim tag) pieces) in
       apiRequest c (js "/api/questions")
         (POST (question_body v (questionData c) tags)) ;;
       setQuestionData (empty_questionData v) ;;
       fetchQuestions c)
      (fun error => alert (message error)) ;;
    setLoading false.

(** The inner [try] of lines 173-185 (ImmigrantConnect only). *)
Definition factCheck (c : AppState) (answer : value) : M unit :=
  try_catch
    (answer_id <- get_prop answer "id" ;;
     question_title <- get_prop (currentQuestion c) "title" ;;
     apiRequest c (js "/api/fact-check-answer")
       (POST (VObj [(js "answer_id", answer_id);
                    (js "question_title", question_title);
                    (js "answer_content", VStr (answerContent c))])) ;;
     ret tt)
    (fun factCheckError => console_error "Fact-check failed:" factCheckError).

(** [handleCreateAnswer], lines 162-193 and 983-1000 *)
Definition handleCreateAnswer (v : Variant) (c : AppState) : M unit :=
  preventDefault ;;
  if negb (truthy (token c)) || negb (truthy (currentQuestion c)) then ret tt
  else
    setLoading true ;;
    try_catch
      (id <- get_prop (currentQuestion c) "id" ;;
       answer <- apiRequest c
                   (js "/api/questions/" ++ toString id ++ js "/answers")
                   (POST (VObj [(js "content", VStr (answerContent c))])) ;;
       match v with
       | ImmigrantConnect => factCheck c answer
       | QAPlatform => ret tt
       end ;;
       setAnswerContent [] ;;
       id' <- get_prop (currentQuestion c) "id" ;;
       fetchQuestion c id')
      (fun error => alert (message error)) ;;
    setLoading false.

(** [handleVote], lines 195-216 and 1002-1023 *)
Definition handleVote (c : AppState) (targetId targetType value : value)
  : M unit :=
  if negb (truthy (token c)) then ret tt
  else
    try_catch
      (user_id <- get_prop (user c) "id" ;;
       apiRequest c (js "/api/vote")
         (POST (VObj [(js "user_id", user_id);
                      (js "target_id", targetId);
                      (js "target_type", targetType);
                      (js "value", value)])) ;;
       (if truthy (currentQuestion c) then
          id <- get_prop (currentQuestion c) "id" ;;
          fetchQuestion c id
        else ret tt) ;;
       fetchQuestions c)
      (fun error => console_error "Vote failed:" error).

Definition chat_endpoint (v : Variant) : jsstring :=
  match v with
  | ImmigrantConnect => js "/api/immigration-chat"
  | QAPlatform => js "/api/chat"
  end.

Definition fallback_text : jsstring :=
  js "Sorry, I encountered an error. Please try again.".

(** [handleChatMessage], lines 218-238 and 1025-1045 *)
Definition handleChatMessage (v : Variant) (c : AppState) : M unit :=
  if negb (truthy (VStr (trim (chatInput c)))) || negb (truthy (token c))
  then ret tt
  else
    let userMessage := {| text := VStr (chatInput c); sender := js "user" |} in
    setChatMessages (fun prev => prev ++ [userMessage]) ;;
    setChatInput [] ;;
    try_catch
      (response <- apiRequest c (chat_endpoint v)
                     (POST (VObj [(js "message", VStr (chatInput c))])) ;;
       response_text <- get_prop response "response" ;;
       let aiMessage := {| text := response_text; sender := js "ai" |} in
       setChatMessages (fun prev => prev ++ [aiMessage]))
      (fun error =>
         console_error "Chat failed:" error ;;
         let errorMessage :=
           {| text := VStr fallback_text; sender := js "ai" |} in
         setChatMessages (fun prev => prev ++ [errorMessage])).

(** [handleSearch], lines 240-252 and 1047-1059 *)
Definition handleSearch (c : AppState) : M unit :=
  if negb (truthy (VStr (trim (searchQuery c)))) then fetchQuestions c
  else
    try_catch
      (encoded <- match encodeURIComponent (searchQuery c) with
                  | Some q => ret q
                  | None => throw (Native URIError_malformed)
                  end ;;
       results <- apiRequest c (js "/api/search?q=" ++ encoded) no_options ;;
       setQuestions results)
      (fun error => console_error "Search failed:" error).

(** [logout], lines 264-270 and 1071-1077 *)
Definition logout (c : AppState) : M unit :=
  setToken VNull ;;
  setUser VNull ;;
  localStorage_removeItem ;;
  setCurrentQuestion VNull ;;
  setAnswers (VArr []).

(** The [onChange] of the search box and of the login form. *)
Definition onChange_searchQuery (target_value : jsstring) (c : AppState)
  : M unit :=
  setSearchQuery target_value.

Definition onChange_loginData (key : string) (target_value : jsstring)
    (c : AppState) : M unit :=
  setLoginData (spread (loginData c) [(js key, VStr target_value)]).

(** The [onClick] of the round button that opens the chat panel. *)
Definition openChat (c : AppState) : M unit := setIsChatOpen true.

(** A handler created by the current render is called: its closure holds
    the cells as they are now. *)
Definition dispatch {A} (handler : AppState -> M A) : M A :=
  fun w => handler (app w) w.

(** The world a handler leaves, and the events it produces. *)
Definition after {A} (handler : AppState -> M A) (w : World) : World :=
  world (dispatch handler w).

Definition trace {A} (handler : AppState -> M A) (w : World) : list event :=
  events (dispatch handler w).

(** The renders that follow a handler: the effect runs when [token] is not
    what the render before held, and once more when the effect itself
    changed [token] (it can only clear it, and the second run does not
    touch it). *)
Definition rerender (before : value) : M unit :=
  fun w =>
    if Object_is before (token (app w)) then ret tt w
    else
      (dispatch useEffect_token ;;
       fun w' =>
         if Object_is (token (app w)) (token (app w')) then ret tt w'
         else dispatch useEffect_token w') w.

(** A user action: the handler, then the renders it causes. *)
Definition on (handler : AppState -> M unit) : M unit :=
  fun w => (dispatch handler ;; rerender (token (app w))) w.

(** Logging out and in again, then opening the chat panel. *)
Definition log_out_and_in (v : Variant) (username password : jsstring)
  : M unit :=
  on logout ;;
  on (onChange_loginData "username" username) ;;
  on (onChange_loginData "password" password) ;;
  on (handleAuth v) ;;
  on openChat.

(* ================================================================== *)
(** ** How a call of [apiRequest] ends *)

(** The error built from the payload of a response that is not OK. *)
Definition failure_of (payload : value) : exn :=
  match member payload (js "detail") with
  | Some detail =>
      Error (toString (if truthy detail then detail
                       else str "Request failed"))
  | None => Native (TypeError_property payload (js "detail"))
  end.

(** What [apiRequest] resolves or rejects with, from the backend's answer. *)
Definition api_result (answer : FetchResult) : exn + value :=
  match answer with
  | Rejected => inl (Native TypeError_fetch)
  | Resolved r =>
      if ok r then
        match json r with
        | Some v => inr v
        | None => inl (Native SyntaxError_json)
        end
      else
        match json r with
        | Some payload => inl (failure_of payload)
        | None => inl (Error (js "Network error"))
        end
  end.

Definition with_backend (s : Srv) (w : World) : World :=
  {| app := app w; localStorage_token := localStorage_token w; backend := s |}.

(* ================================================================== *)
(** ** Notions of the statements *)

(** [s] holds white space only (or nothing). *)
Definition blank (s : jsstring) : bool := forallb is_white_space s.

(** [t] neither starts nor ends with white space. *)
Definition no_space_at_ends (t : jsstring) : Prop :=
  (forall c t', t = c :: t' -> is_white_space c = false)
  /\ (forall t' c, t = t' ++ [c] -> is_white_space c = false).

(** [t] is [p] without the white space around it. *)
Definition Trimmed (p t : jsstring) : Prop :=
  exists l r, p = l ++ t ++ r /\ blank l = true /\ blank r = true
              /\ no_space_at_ends t.

(** The tag list as the specification words it: the field is cut at its
    commas, every piece is trimmed, the empty ones are dropped. *)
Definition TagList (field : jsstring) (tags : list jsstring) : Prop :=
  exists pieces trimmed,
    pieces <> []
    /\ join [comma] pieces = field
    /\ Forall (fun p => ~ In comma p) pieces
    /\ Forall2 Trimmed pieces trimmed
    /\ tags = filter (fun t => negb (jsstring_eqb t [])) trimmed.

(** A request without options, and how a call would end in a world. *)
Definition GET (c : AppState) (path : jsstring) : Request :=
  config_of c path no_options.

Definition outcome_of (w : World) (rq : Request) : exn + value :=
  api_result (snd (serve (backend w) rq)).

Definition served (w : World) (rq : Request) : World :=
  with_backend (fst (serve (backend w) rq)) w.

(** The requests of the handlers. *)
Definition vote_request (c : AppState)
    (user_id targetId targetType value : value) : Request :=
  config_of c (js "/api/vote")
    (POST (VObj [(js "user_id", user_id); (js "target_id", targetId);
                 (js "target_type", targetType); (js "value", value)])).

Definition question_request (c : AppState) (id : value) : Request :=
  GET c (js "/api/questions/" ++ toString id).

Definition answers_request (c : AppState) (id : value) : Request :=
  GET c (js "/api/questions/" ++ toString id ++ js "/answers").

Definition list_request (c : AppState) : Request := GET c (js "/api/questions").

(** The identifier of the open question, when one is open. *)
Definition open_question (c : AppState) : option value :=
  if truthy (currentQuestion c) then member (currentQuestion c) (js "id")
  else None.

(** The re-fetches after a vote: the open question with its answers, then
    the list.  The direction of the vote is no argument. *)
Definition refetch_requests (c : AppState) : list Request :=
  match open_question c with
  | Some id => [question_request c id; answers_request c id]
  | None => []
  end ++ [list_request c].

(** What [fetchQuestion] and [fetchQuestions] write, from how their calls
    end. *)
Definition store_question (q a : exn + value) (s : AppState) : AppState :=
  match q, a with
  | inr questionData, inr answersData =>
      with_answers answersData (with_currentQuestion questionData s)
  | _, _ => s
  end.

Definition store_questions (l : exn + value) (s : AppState) : AppState :=
  match l with
  | inr questionsData => with_questions questionsData s
  | inl _ => s
  end.

Definition auth_request (c : AppState) : Request :=
  let endpoint :=
    if jsstring_eqb (authMode c) (js "login") then js "/api/login"
    else js "/api/register" in
  let data :=
    if jsstring_eqb (authMode c) (js "login") then loginData c
    else registerData c in
  config_of c endpoint (POST (VObj data)).

Definition create_question_request (v : Variant) (c : AppState)
    (tags : list jsstring) : Request :=
  config_of c (js "/api/questions") (POST (question_body v (questionData c) tags)).

Definition create_answer_request (c : AppState) (id : value) : Request :=
  config_of c (js "/api/questions/" ++ toString id ++ js "/answers")
    (POST (VObj [(js "content", VStr (answerContent c))])).

Definition fact_check_request (c : AppState) (answer_id title : value)
  : Request :=
  config_of c (js "/api/fact-check-answer")
    (POST (VObj [(js "answer_id", answer_id);
                 (js "question_title", title);
                 (js "answer_content", VStr (answerContent c))])).

Definition chat_request (v : Variant) (c : AppState) : Request :=
  config_of c (chat_endpoint v)
    (POST (VObj [(js "message", VStr (chatInput c))])).

Definition search_request (c : AppState) (encoded : jsstring) : Request :=
  GET c (js "/api/search?q=" ++ encoded).

(** The text of the assistant turn, from how the chat call ends. *)
Definition reply_text (r : exn + value) : value :=
  match r with
  | inr response =>
      match member response (js "response") with
      | Some t => t
      | None => VStr fallback_text
      end
  | inl _ => VStr fallback_text
  end.

(** From [w] to [w'] the chat transcript, the state of the chat panel and
    the authentication tab are kept, and the token is kept or cleared. *)
Definition keeps (w w' : World) : Prop :=
  chatMessages (app w') = chatMessages (app w)
  /\ isChatOpen (app w') = isChatOpen (app w)
  /\ authMode (app w') = authMode (app w)
  /\ (token (app w') = token (app w) \/ token (app w') = VNull).

(** A computation that leaves the chat transcript alone. *)
Definition keeps_transcript (m : M unit) : Prop :=
  forall w, chatMessages (app (world (m w))) = chatMessages (app w).

(** A computation that ends without an error, whatever the backend does. *)
Definition never_throws (m : M unit) : Prop :=
  forall w, result (m w) = inr tt.

(** The error [Promise.all] rejects with in [fetchQuestion]. *)
Definition first_error (q a : exn + value) : option exn :=
  match q, a with
  | inl e, _ => Some e
  | inr _, inl e => Some e
  | inr _, inr _ => None
  end.

Definition me_request (c : AppState) : Request := GET c (js "/api/me").

(* ------------------------------------------------------------------ *)
(** *** The other handlers of the page *)

Definition setAuthMode x := update (with_authMode x).

(** The [onChange] of the registration form, of the question form (its two
    [Select] included), of the answer box and of the chat box; the
    [onValueChange] of the tabs. *)
Definition onChange_registerData (key : string) (target_value : jsstring)
    (c : AppState) : M unit :=
  setRegisterData (spread (registerData c) [(js key, VStr target_value)]).

Definition onChange_questionData (key : string) (target_value : jsstring)
    (c : AppState) : M unit :=
  setQuestionData (spread (questionData c) [(js key, VStr target_value)]).

Definition onChange_answerContent (target_value : jsstring) (c : AppState)
  : M unit :=
  setAnswerContent target_value.

Definition onChange_chatInput (target_value : jsstring) (c : AppState)
  : M unit :=
  setChatInput target_value.

Definition onValueChange_authMode (mode : jsstring) (c : AppState) : M unit :=
  setAuthMode mode.

(** The [onClick] of the title in the header and of "Back to Questions",
    lines 402-405, 608-611, 1173-1176 and 1330-1333. *)
Definition backToQuestions (c : AppState) : M unit :=
  setCurrentQuestion VNull ;;
  fetchQuestions c.

(** The [onClick] of a question of the list, lines 550 and 1278;
    [questionId] is the [question.id] the render has read for the key. *)
Definition openQuestion (questionId : value) (c : AppState) : M unit :=
  fetchQuestion c questionId.

(** The [onClick] of the cross of the chat panel. *)
Definition closeChat (c : AppState) : M unit := setIsChatOpen false.

(** What the user can do on the page. *)
Inductive Action :=
| SwitchTab (mode : jsstring)
| TypeLogin (key : string) (typed : jsstring)
| TypeRegister (key : string) (typed : jsstring)
| SubmitAuth
| GoToList
| TypeSearch (typed : jsstring)
| Search
| TypeQuestion (key : string) (typed : jsstring)
| SubmitQuestion
| Logout
| OpenQuestion (questionId : value)
| Vote (targetId targetType direction : value)
| TypeAnswer (typed : jsstring)
| SubmitAnswer
| OpenChat
| CloseChat
| TypeChat (typed : jsstring)
| SendChat.

Definition handler_of (v : Variant) (a : Action) : AppState -> M unit :=
  match a with
  | SwitchTab mode => onValueChange_authMode mode
  | TypeLogin key typed => onChange_loginData key typed
  | TypeRegister key typed => onChange_registerData key typed
  | SubmitAuth => handleAuth v
  | GoToList => backToQuestions
  | TypeSearch typed => onChange_searchQuery typed
  | Search => handleSearch
  | TypeQuestion key typed => onChange_questionData key typed
  | SubmitQuestion => handleCreateQuestion v
  | Logout => logout
  | OpenQuestion questionId => openQuestion questionId
  | Vote targetId targetType direction =>
      fun c => handleVote c targetId targetType direction
  | TypeAnswer typed => onChange_answerContent typed
  | SubmitAnswer => handleCreateAnswer v
  | OpenChat => openChat
  | CloseChat => closeChat
  | TypeChat typed => onChange_chatInput typed
  | SendChat => handleChatMessage v
  end.

(** One action after the other, each with the renders it causes. *)
Fixpoint session (v : Variant) (actions : list Action) : M unit :=
  match actions with
  | [] => ret tt
  | a :: rest => on (handler_of v a) ;; session v rest
  end.

(* ------------------------------------------------------------------ *)
(** *** Notions of the further statements *)

(** A request as the render with state [c] makes them: to the configured
    backend, with the headers of a call that passes none, and either
    without method and body or as a POST with a body. *)
Definition well_formed (c : AppState) (rq : Request) : Prop :=
  request_headers rq = standard_headers c
  /\ (exists path, url rq = API_BASE_URL ++ path)
  /\ ((request_method rq = None /\ request_body rq = None)
      \/ (request_method rq = Some (js "POST")
          /\ exists b, request_body rq = Some (JSON_stringify b))).

(** A tag as the question form sends them: not empty, without comma,
    without white space around it. *)
Definition clean_tag (t : jsstring) : Prop :=
  t <> [] /\ ~ In comma t /\ no_space_at_ends t.

(** The actions whose handlers write the token. *)
Definition writes_session (a : Action) : bool :=
  match a with
  | SubmitAuth | Logout => true
  | _ => false
  end.

(** Every request a computation sends satisfies [P]. *)
Definition sends_only {A} (P : Request -> Prop) (m : M A) : Prop :=
  forall w, Forall P (requests (events (m w))).

(** A computation relates the world it starts in to the one it leaves. *)
Definition always {A} (R : World -> World -> Prop) (m : M A) : Prop :=
  forall w, R w (world (m w)).

(** The token and its stored copy are what they were. *)
Definition same_session (w w' : World) : Prop :=
  token (app w') = token (app w)
  /\ localStorage_token w' = localStorage_token w.

(** The stored token is the text of the token; when nothing is stored the
    token is [null]. *)
Definition session_mirrored (w : World) : Prop :=
  match localStorage_token w with
  | Some s => toString (token (app w)) = s
  | None => token (app w) = VNull
  end.

(** The world of a browser: what the cells hold, what is stored, and the
    backend it talks to. *)
Definition browser (s : AppState) (stored : option jsstring) (b : Srv)
  : World :=
  {| app := s; localStorage_token := stored; backend := b |}.

(* ================================================================== *)
(** ** Strings *)

Lemma split_not_nil (sep : N) (s : jsstring) : split sep s <> [].
Proof.
  destruct s as [|c s']; simpl; [discriminate|].
  destruct (c =? sep); [discriminate|].
  destruct (split sep s'); discriminate.
Qed.

Lemma join_split (sep : N) (s : jsstring) : join [sep] (split sep s) = s.
Proof.
  induction s as [|c s' IH]; simpl; [reflexivity|].
  destruct (N.eqb_spec c sep) as [->|Hne].
  - pose proof (split_not_nil sep s') as Hnil.
    destruct (split sep s') as [|p ps]; [contradiction|].
    simpl in *. now rewrite IH.
  - pose proof (split_not_nil sep s') as Hnil.
    destruct (split sep s') as [|p ps]; [contradiction|].
    destruct ps as [|q qs]; simpl in *; now rewrite <- IH.
Qed.

Lemma split_no_separator (sep : N) (s : jsstring) :
  Forall (fun p => ~ In sep p) (split sep s).
Proof.
  induction s as [|c s' IH]; simpl.
  - constructor; [intros []|constructor].
  - destruct (N.eqb_spec c sep) as [->|Hne].
    + constructor; [intros []|exact IH].
    + destruct (split sep s') as [|p ps]; inversion IH; subst.
      * constructor; [|constructor]. intros [H|[]]. congruence.
      * constructor; [|assumption]. intros [H|H]; [congruence|auto].
Qed.

Lemma trimStart_prefix (s : jsstring) :
  exists l, s = l ++ trimStart s /\ blank l = true.
Proof.
  induction s as [|c s' [l [Hs Hl]]]; simpl.
  - now exists [].
  - destruct (is_white_space c) eqn:Hc.
    + exists (c :: l). simpl. rewrite Hc, Hl. now rewrite <- Hs.
    + now exists [].
Qed.

Lemma trimStart_head (s : jsstring) (c : N) (t : jsstring) :
  trimStart s = c :: t -> is_white_space c = false.
Proof.
  induction s as [|a s' IH]; simpl; [discriminate|].
  destruct (is_white_space a) eqn:Ha; [exact IH|].
  intros [= <- _]. exact Ha.
Qed.

Lemma trimStart_blank (s : jsstring) : blank s = true -> trimStart s = [].
Proof.
  induction s as [|c s' IH]; simpl; [reflexivity|].
  destruct (is_white_space c); simpl; [exact IH|discriminate].
Qed.

Lemma blank_app (a b : jsstring) : blank (a ++ b) = blank a && blank b.
Proof. apply forallb_app. Qed.

Lemma blank_rev (a : jsstring) : blank (rev a) = blank a.
Proof.
  induction a as [|c a IH]; simpl; [reflexivity|].
  rewrite blank_app, IH. simpl. rewrite andb_true_r. apply andb_comm.
Qed.

Lemma trimEnd_suffix (s : jsstring) :
  exists r, s = trimEnd s ++ r /\ blank r = true.
Proof.
  destruct (trimStart_prefix (rev s)) as [l [Hs Hl]].
  exists (rev l). split.
  - unfold trimEnd. rewrite <- rev_app_distr, <- Hs. now rewrite rev_involutive.
  - now rewrite blank_rev.
Qed.

Lemma trimEnd_last (s t : jsstring) (c : N) :
  trimEnd s = t ++ [c] -> is_white_space c = false.
Proof.
  unfold trimEnd. intros H.
  apply (f_equal (@rev N)) in H.
  rewrite rev_involutive, rev_app_distr in H. simpl in H.
  exact (trimStart_head _ _ _ H).
Qed.

Lemma trim_Trimmed (p : jsstring) : Trimmed p (trim p).
Proof.
  destruct (trimStart_prefix p) as [l [Hp Hl]].
  destruct (trimEnd_suffix (trimStart p)) as [r [Hq Hr]].
  exists l, r. repeat split; try assumption.
  - fold (trim p) in Hq. now rewrite <- Hq.
  - intros c t' Ht. fold (trim p) in Hq. rewrite Ht in Hq. simpl in Hq.
    exact (trimStart_head _ _ _ Hq).
  - intros t' c Ht. exact (trimEnd_last _ _ _ Ht).
Qed.

Lemma trim_blank (s : jsstring) : trim s = [] <-> blank s = true.
Proof.
  split.
  - intros H. destruct (trim_Trimmed s) as [l [r [Hs [Hl [Hr _]]]]].
    rewrite H in Hs. rewrite Hs. simpl. now rewrite blank_app, Hl, Hr.
  - intros H. unfold trim. now rewrite (trimStart_blank _ H).
Qed.

Lemma truthy_trim (s : jsstring) :
  truthy (VStr (trim s)) = negb (blank s).
Proof.
  destruct (blank s) eqn:Hb.
  - apply trim_blank in Hb. now rewrite Hb.
  - simpl. destruct (trim s) eqn:Ht; [|reflexivity].
    apply trim_blank in Ht. congruence.
Qed.

Lemma tags_of_TagList (field : jsstring) : TagList field (tags_of field).
Proof.
  exists (split comma field), (List.map trim (split comma field)).
  repeat split.
  - apply split_not_nil.
  - apply join_split.
  - apply split_no_separator.
  - induction (split comma field); constructor; [apply trim_Trimmed|assumption].
  - unfold tags_of. apply filter_ext. intros [|c t]; reflexivity.
Qed.

Example split_keeps_empty_pieces :
  split comma (js "a,,b,") = [js "a"; js ""; js "b"; js ""].
Proof. reflexivity. Qed.

Example trim_strips_both_ends :
  trim ([0xA0; 0x09] ++ js " a b " ++ [0x2028]) = js "a b".
Proof. reflexivity. Qed.

Example tags_of_drops_blanks :
  tags_of (js " H1B , ,green-card,") = [js "H1B"; js "green-card"].
Proof. reflexivity. Qed.

Example encodeURIComponent_ascii :
  encodeURIComponent (js "a b&c/d?") = Some (js "a%20b%26c%2Fd%3F").
Proof. reflexivity. Qed.

Example encodeURIComponent_utf8 :
  encodeURIComponent [0xE9; 0x20AC; 0xD83D; 0xDE00]
  = Some (js "%C3%A9%E2%82%AC%F0%9F%98%80").
Proof. reflexivity. Qed.

Example encodeURIComponent_lone_surrogate :
  encodeURIComponent (js "a" ++ [0xD83D]) = None.
Proof. reflexivity. Qed.

Example toString_array :
  toString (VArr [VNum 12; VNull; str "x"; VNum (-305); VArr [VNum 0; VBool true]])
  = js "12,,x,-305,0,true".
Proof. reflexivity. Qed.

Example toString_object :
  toString (VArr [VObj [(js "msg", str "field required")]])
  = js "[object Object]".
Proof. reflexivity. Qed.

(* ================================================================== *)
(** ** The fetching helpers *)

Lemma apiRequest_run (c : AppState) (path : jsstring) (options : Options)
    (w : World) :
  apiRequest c path options w =
  {| result := api_result (snd (serve (backend w) (config_of c path options)));
     world := with_backend
                (fst (serve (backend w) (config_of c path options))) w;
     events := [Fetch (config_of c path options)] |}.
Proof.
  unfold apiRequest, bind, fetch, with_backend.
  destruct (serve (backend w) (config_of c path options)) as [s' [|[o j]]];
    cbn; [reflexivity|].
  destruct o; cbn.
  - destruct j; reflexivity.
  - destruct j as [payload|]; cbn.
    + destruct payload; reflexivity.
    + reflexivity.
Qed.


Ltac monad_unfold :=
  cbv [trace after dispatch bind try_catch ret throw start await emit update
       setQuestions setCurrentQuestion setAnswers setUser setToken setLoading
       setIsChatOpen setChatInput setSearchQuery setLoginData setRegisterData
       setQuestionData setAnswerContent setChatMessages set_localStorage
       localStorage_setItem localStorage_removeItem preventDefault alert
       console_error get_prop].

Ltac record_simpl :=
  cbn [result world events app backend localStorage_token with_backend
       fst snd List.app].

Ltac call_api :=
  repeat (rewrite apiRequest_run; record_simpl).

Lemma bind_run {A B} (m : M A) (k : A -> M B) (w : World) :
  bind m k w =
  match result (m w) with
  | inl e => {| result := inl e; world := world (m w); events := events (m w) |}
  | inr a =>
      {| result := result (k a (world (m w)));
         world := world (k a (world (m w)));
         events := events (m w) ++ events (k a (world (m w))) |}
  end.
Proof.
  unfold bind. destruct (m w) as [[e|a] w1 ev]; [reflexivity|].
  cbn. now destruct (k a w1).
Qed.

Ltac destruct_outcome :=
  match goal with
  | |- context [match outcome_of ?w ?r with _ => _ end] =>
      destruct (outcome_of w r)
  | |- context [store_questions (outcome_of ?w ?r)] =>
      destruct (outcome_of w r)
  | |- context [store_question (outcome_of ?w ?r)] =>
      destruct (outcome_of w r)
  | |- context [store_question _ (outcome_of ?w ?r)] =>
      destruct (outcome_of w r)
  end.

Lemma fetchQuestions_run (c : AppState) (w : World) :
  fetchQuestions c w =
  {| result := inr tt;
     world := {| app := store_questions (outcome_of w (list_request c)) (app w);
                 localStorage_token := localStorage_token w;
                 backend := backend (served w (list_request c)) |};
     events := Fetch (list_request c) ::
               match outcome_of w (list_request c) with
               | inl e => [ConsoleError (js "Failed to fetch questions:") e]
               | inr _ => []
               end |}.
Proof.
  unfold fetchQuestions, outcome_of, served, list_request, GET.
  monad_unfold. call_api.
  destruct (api_result _); reflexivity.
Qed.

Lemma fetchQuestion_run (c : AppState) (id : value) (w : World) :
  let q := outcome_of w (question_request c id) in
  let w1 := served w (question_request c id) in
  let a := outcome_of w1 (answers_request c id) in
  fetchQuestion c id w =
  {| result := inr tt;
     world := {| app := store_question q a (app w);
                 localStorage_token := localStorage_token w;
                 backend := backend (served w1 (answers_request c id)) |};
     events := Fetch (question_request c id) ::
               Fetch (answers_request c id) ::
               match first_error q a with
               | Some e =>
                   [ConsoleError (js "Failed to fetch question details:") e]
               | None => []
               end |}.
Proof.
  unfold fetchQuestion, outcome_of, served, question_request, answers_request,
    GET.
  monad_unfold. call_api.
  destruct (api_result _); record_simpl;
    destruct (api_result _); reflexivity.
Qed.

Lemma fetchUser_run (c : AppState) (w : World) :
  fetchUser c w =
  {| result := inr tt;
     world := {| app := match outcome_of w (me_request c) with
                        | inr userData => with_user userData (app w)
                        | inl _ => with_token VNull (app w)
                        end;
                 localStorage_token :=
                   match outcome_of w (me_request c) with
                   | inr _ => localStorage_token w
                   | inl _ => None
                   end;
                 backend := backend (served w (me_request c)) |};
     events := Fetch (me_request c) ::
               match outcome_of w (me_request c) with
               | inl e => [ConsoleError (js "Failed to fetch user:") e]
               | inr _ => []
               end |}.
Proof.
  unfold fetchUser, outcome_of, served, me_request, GET.
  monad_unfold. call_api.
  destruct (api_result _); reflexivity.
Qed.

Ltac run :=
  repeat first
    [ rewrite apiRequest_run | rewrite fetchQuestions_run
    | rewrite fetchQuestion_run | rewrite fetchUser_run
    | progress record_simpl ].

Lemma truthy_member (v : value) (key : jsstring) :
  truthy v = true -> exists x, member v key = Some x.
Proof. destruct v; simpl; try discriminate; eauto. Qed.

Lemma requests_app (a b : list event) :
  requests (a ++ b) = requests a ++ requests b.
Proof. apply flat_map_app. Qed.

Lemma requests_fetch (r : Request) (l : list event) :
  requests (Fetch r :: l) = r :: requests l.
Proof. reflexivity. Qed.

Lemma requests_logged {A} (label : jsstring) (o : exn + A) :
  requests match o with
           | inl e => [ConsoleError label e]
           | inr _ => []
           end = [].
Proof. destruct o; reflexivity. Qed.

Lemma requests_logged_first (label : jsstring) (o : option exn) :
  requests match o with
           | Some e => [ConsoleError label e]
           | None => []
           end = [].
Proof. destruct o; reflexivity. Qed.

Lemma store_questions_frame (l : exn + value) (s : AppState) :
  token (store_questions l s) = token s
  /\ user (store_questions l s) = user s
  /\ currentQuestion (store_questions l s) = currentQuestion s
  /\ answers (store_questions l s) = answers s
  /\ chatMessages (store_questions l s) = chatMessages s
  /\ isChatOpen (store_questions l s) = isChatOpen s
  /\ authMode (store_questions l s) = authMode s.
Proof. destruct l; repeat split. Qed.

(* ================================================================== *)
(** ** Voting *)

(** C3.  A vote that succeeds is followed by exactly one re-fetch of the
    open question with its answers, when a question is open, and exactly
    one re-fetch of the question list, whatever the direction of the vote;
    the cells hold afterwards what they held before or what the re-fetches
    returned, and nothing else. *)
Theorem handleVote_refetches (w : World)
    (targetId targetType value user_id reply : value) :
  truthy (token (app w)) = true ->
  member (user (app w)) (js "id") = Some user_id ->
  outcome_of w (vote_request (app w) user_id targetId targetType value)
    = inr reply ->
  let c := app w in
  let vote := vote_request c user_id targetId targetType value in
  let w1 := served w vote in
  requests (trace (fun c => handleVote c targetId targetType value) w)
    = vote :: refetch_requests c
  /\ (forall value' reply',
        outcome_of w (vote_request c user_id targetId targetType value')
          = inr reply' ->
        tl (requests (trace (fun c => handleVote c targetId targetType value') w))
        = tl (requests (trace (fun c => handleVote c targetId targetType value) w)))
  /\ app (after (fun c => handleVote c targetId targetType value) w)
     = match open_question c with
       | Some id =>
           let w2 := served w1 (question_request c id) in
           let w3 := served w2 (answers_request c id) in
           store_questions (outcome_of w3 (list_request c))
             (store_question (outcome_of w1 (question_request c id))
                             (outcome_of w2 (answers_request c id)) c)
       | None => store_questions (outcome_of w1 (list_request c)) c
       end.
Proof.
  intros Htoken Huser Hvote c.
  assert (Hreq : forall value' reply',
             outcome_of w (vote_request c user_id targetId targetType value')
               = inr reply' ->
             requests (trace (fun c => handleVote c targetId targetType value') w)
             = vote_request c user_id targetId targetType value'
               :: refetch_requests c).
  { intros value' reply' Hok. subst c.
    unfold handleVote, refetch_requests, open_question. monad_unfold.
    rewrite Htoken, Huser. cbn [negb]. call_api.
    fold (vote_request (app w) user_id targetId targetType value').
    unfold outcome_of in Hok. rewrite Hok.
    destruct (truthy (currentQuestion (app w))) eqn:Hopen.
    - destruct (truthy_member _ (js "id") Hopen) as [id Hid]. rewrite Hid.
      rewrite fetchQuestion_run. record_simpl.
      rewrite fetchQuestions_run. record_simpl.
      rewrite !requests_fetch, requests_app, requests_logged_first,
        requests_fetch, requests_logged.
      reflexivity.
    - record_simpl. rewrite fetchQuestions_run. record_simpl.
      rewrite !requests_fetch, requests_logged. reflexivity. }
  intros vote w1.
  split; [exact (Hreq _ _ Hvote)|]. split.
  - intros value' reply' Hok.
    rewrite (Hreq _ _ Hok), (Hreq _ _ Hvote). reflexivity.
  - subst w1 vote c. unfold handleVote, open_question. monad_unfold.
    rewrite Htoken, Huser. cbn [negb]. call_api.
    unfold outcome_of in Hvote.
    fold (vote_request (app w) user_id targetId targetType value).
    rewrite Hvote.
    destruct (truthy (currentQuestion (app w))) eqn:Hopen.
    + destruct (truthy_member _ (js "id") Hopen) as [id Hid]. rewrite Hid.
      rewrite fetchQuestion_run. record_simpl.
      rewrite fetchQuestions_run. record_simpl. reflexivity.
    + record_simpl. rewrite fetchQuestions_run. record_simpl. reflexivity.
Qed.

(* ================================================================== *)
(** ** Guards *)

(** C9.  Without a token, [handleCreateQuestion], [handleCreateAnswer],
    [handleVote] and [handleChatMessage] return at once: they send nothing
    and leave the world as it was.  So does [handleCreateAnswer] when no
    question is open. *)
Theorem guards_return_at_once (v : Variant) (w w' : World)
    (targetId targetType value : value) :
  truthy (token (app w)) = false ->
  truthy (currentQuestion (app w')) = false ->
  (requests (trace (handleCreateQuestion v) w) = []
   /\ after (handleCreateQuestion v) w = w)
  /\ (requests (trace (handleCreateAnswer v) w) = []
      /\ after (handleCreateAnswer v) w = w)
  /\ (requests (trace (fun c => handleVote c targetId targetType value) w) = []
      /\ after (fun c => handleVote c targetId targetType value) w = w)
  /\ (requests (trace (handleChatMessage v) w) = []
      /\ after (handleChatMessage v) w = w)
  /\ (requests (trace (handleCreateAnswer v) w') = []
      /\ after (handleCreateAnswer v) w' = w').
Proof.
  intros Htoken Hquestion.
  unfold handleCreateQuestion, handleCreateAnswer, handleVote,
    handleChatMessage.
  monad_unfold.
  rewrite Htoken, Hquestion, !orb_true_r. cbn.
  repeat split.
Qed.

(* ================================================================== *)
(** ** Logging out *)

(** The renders after a handler touch neither the chat nor the forms, and
    can only clear the token. *)
Lemma keeps_refl (w : World) : keeps w w.
Proof. unfold keeps. auto. Qed.

Lemma keeps_trans (w1 w2 w3 : World) : keeps w1 w2 -> keeps w2 w3 -> keeps w1 w3.
Proof.
  unfold keeps. intros (Hc & Ho & Hm & Ht) (Hc' & Ho' & Hm' & Ht').
  repeat split; try congruence.
  destruct Ht' as [Ht'|Ht']; [rewrite Ht'; exact Ht|now right].
Qed.

Lemma fetchQuestions_keeps (c : AppState) (w : World) :
  keeps w (world (fetchQuestions c w)).
Proof.
  rewrite fetchQuestions_run. unfold keeps. record_simpl.
  destruct (outcome_of _ _); cbn; auto.
Qed.

Lemma fetchUser_keeps (c : AppState) (w : World) :
  keeps w (world (fetchUser c w)).
Proof.
  rewrite fetchUser_run. unfold keeps. record_simpl.
  destruct (outcome_of _ _); cbn; auto.
Qed.

Lemma useEffect_token_keeps (w : World) :
  keeps w (world (dispatch useEffect_token w)).
Proof.
  unfold dispatch, useEffect_token.
  destruct (truthy (token (app w))); [|apply fetchQuestions_keeps].
  rewrite bind_run, fetchUser_run. record_simpl.
  eapply keeps_trans; [|apply fetchQuestions_keeps].
  pose proof (fetchUser_keeps (app w) w) as H.
  now rewrite fetchUser_run in H.
Qed.

Lemma rerender_keeps (before : value) (w : World) :
  keeps w (world (rerender before w)).
Proof.
  unfold rerender.
  destruct (Object_is before (token (app w))); [apply keeps_refl|].
  rewrite bind_run.
  destruct (result (dispatch useEffect_token w)); record_simpl;
    [apply useEffect_token_keeps|].
  eapply keeps_trans; [apply useEffect_token_keeps|].
  destruct (Object_is _ _); [apply keeps_refl|apply useEffect_token_keeps].
Qed.

(** C5.  [logout] sends nothing and awaits nothing; it leaves [token] null,
    no ['token'] entry in [localStorage], [user] and [currentQuestion] null
    and [answers] empty.  The component then renders the authentication
    screen, and still does after the effect of the token change. *)
Theorem logout_clears_session (w : World) :
  let w' := after logout w in
  trace logout w = []
  /\ token (app w') = VNull
  /\ localStorage_token w' = None
  /\ user (app w') = VNull
  /\ currentQuestion (app w') = VNull
  /\ answers (app w') = VArr []
  /\ render (app w') = AuthScreen (authMode (app w))
  /\ render (app (world (on logout w))) = AuthScreen (authMode (app w)).
Proof.
  repeat split.
  unfold on. rewrite bind_run.
  change (dispatch logout w) with
    {| result := inr tt; world := after logout w; events := [] |}.
  record_simpl.
  destruct (rerender_keeps (token (app w)) (after logout w))
    as (_ & _ & Hmode & Htoken).
  unfold render.
  replace (truthy _) with false
    by (destruct Htoken as [Htoken|Htoken]; now rewrite Htoken).
  cbn [negb]. now rewrite Hmode.
Qed.

(* ================================================================== *)
(** ** Signing in *)

(** C7.  When the request of [handleAuth] fails, the message of the error
    is shown by [alert], [token] and the ['token'] entry of [localStorage]
    are what they were, and the authentication screen stays. *)
Theorem handleAuth_failure (v : Variant) (w : World) (e : exn) :
  outcome_of w (auth_request (app w)) = inl e ->
  let w' := after (handleAuth v) w in
  trace (handleAuth v) w
    = [PreventDefault; Fetch (auth_request (app w)); Alert (message e)]
  /\ token (app w') = token (app w)
  /\ localStorage_token w' = localStorage_token w
  /\ render (app w') = render (app w)
  /\ (truthy (token (app w)) = false ->
      localStorage_token w = None ->
      truthy (token (app w')) = false
      /\ localStorage_token w' = None
      /\ render (app w') = AuthScreen (authMode (app w))).
Proof.
  intros Hfail w'.
  assert (Hrun : dispatch (handleAuth v) w
            = {| result := inr tt;
                 world := {| app := with_loading false
                                      (with_loading true (app w));
                             localStorage_token := localStorage_token w;
                             backend := backend
                                          (served w (auth_request (app w))) |};
                 events := [PreventDefault; Fetch (auth_request (app w));
                            Alert (message e)] |}).
  { unfold handleAuth. monad_unfold. call_api.
    cbv [outcome_of auth_request] in Hfail. rewrite Hfail.
    reflexivity. }
  assert (Htoken : token (app w') = token (app w))
    by (subst w'; unfold after; now rewrite Hrun).
  assert (Hstored : localStorage_token w' = localStorage_token w)
    by (subst w'; unfold after; now rewrite Hrun).
  assert (Hrender : render (app w') = render (app w))
    by (subst w'; unfold after; now rewrite Hrun).
  split; [unfold trace; now rewrite Hrun|].
  split; [exact Htoken|]. split; [exact Hstored|]. split; [exact Hrender|].
  intros Hunset Hnone. split; [now rewrite Htoken|].
  split; [now rewrite Hstored|].
  rewrite Hrender. unfold render. now rewrite Hunset.
Qed.

(* ================================================================== *)
(** ** The chat panel *)

(** C8.  With an input that is not blank and a token, [handleChatMessage]
    appends the user's message and empties the input, sends one request,
    and appends one assistant message: the [response] of the reply when the
    call succeeds, and the fixed text ["Sorry, I encountered an error.
    Please try again."] when the call fails or the reply is [null], so that
    reading [response.response] fails.  The transcript grows by exactly
    these two messages, in this order. *)
Theorem handleChatMessage_two_turns (v : Variant) (w : World) :
  blank (chatInput (app w)) = false ->
  truthy (token (app w)) = true ->
  let c := app w in
  let w' := after (handleChatMessage v) w in
  let r := outcome_of w (chat_request v c) in
  let said := {| text := VStr (chatInput c); sender := js "user" |} in
  let apology :=
    {| text := VStr (js "Sorry, I encountered an error. Please try again.");
       sender := js "ai" |} in
  chatMessages (app w')
    = chatMessages c ++ [said; {| text := reply_text r; sender := js "ai" |}]
  /\ chatInput (app w') = []
  /\ requests (trace (handleChatMessage v) w) = [chat_request v c]
  /\ (forall response t,
        r = inr response -> member response (js "response") = Some t ->
        chatMessages (app w')
        = chatMessages c ++ [said; {| text := t; sender := js "ai" |}])
  /\ (forall e, r = inl e ->
        chatMessages (app w') = chatMessages c ++ [said; apology])
  /\ (forall response,
        r = inr response -> member response (js "response") = None ->
        chatMessages (app w') = chatMessages c ++ [said; apology])
  /\ List.length (chatMessages (app w')) = (List.length (chatMessages c) + 2)%nat.
Proof.
  intros Hinput Htoken c w' r said apology.
  assert (Hrun : dispatch (handleChatMessage v) w
    = {| result := inr tt;
         world :=
           {| app := with_chatMessages
                       (chatMessages c
                        ++ [ {| text := VStr (chatInput c); sender := js "user" |};
                             {| text := reply_text r; sender := js "ai" |} ])
                       (with_chatInput [] (app w));
              localStorage_token := localStorage_token w;
              backend := backend (served w (chat_request v c)) |};
         events := Fetch (chat_request v c) ::
                   match r with
                   | inl e => [ConsoleError (js "Chat failed:") e]
                   | inr response =>
                       match member response (js "response") with
                       | Some _ => []
                       | None =>
                           [ConsoleError (js "Chat failed:")
                              (Native (TypeError_property response
                                         (js "response")))]
                       end
                   end |}).
  { subst w' r c. unfold handleChatMessage. monad_unfold.
    rewrite truthy_trim, Hinput, Htoken. cbn [negb orb]. call_api.
    unfold reply_text, outcome_of, chat_request, served.
    destruct (api_result _) as [e|response]; record_simpl.
    - cbn. now rewrite <- app_assoc.
    - destruct (member response (js "response")); record_simpl; cbn;
        now rewrite <- app_assoc. }
  assert (Hmessages : chatMessages (app w')
    = chatMessages c ++ [said; {| text := reply_text r; sender := js "ai" |}])
    by (subst w'; unfold after; now rewrite Hrun).
  split; [exact Hmessages|].
  split; [subst w'; unfold after; now rewrite Hrun|].
  split.
  { unfold trace. rewrite Hrun. record_simpl. rewrite requests_fetch.
    destruct r as [e|response]; [reflexivity|].
    destruct (member response (js "response")); reflexivity. }
  split.
  { intros response t Hr Ht. rewrite Hmessages, Hr. cbn [reply_text].
    now rewrite Ht. }
  split.
  { intros e Hr. rewrite Hmessages, Hr. reflexivity. }
  split.
  { intros response Hr Hnone. rewrite Hmessages, Hr. cbn [reply_text].
    rewrite Hnone. reflexivity. }
  rewrite Hmessages, length_app. reflexivity.
Qed.

(* ================================================================== *)
(** ** Failures in the background *)

Ltac expose H :=
  cbv [outcome_of served with_backend vote_request create_answer_request
       fact_check_request me_request list_request question_request
       answers_request chat_request search_request auth_request
       create_question_request GET] in H;
  cbn [backend app localStorage_token fst snd] in H.

(** C4.  A vote whose request fails is logged and changes no cell and no
    stored token.  A fact-check whose request fails is logged inside
    [handleCreateAnswer], which goes on as after a success: no alert, the
    cells left as they were by the failing call, the open question
    re-fetched.  A failing [/api/me] removes the stored token and sets
    [token] to null, so that the authentication screen is rendered. *)
Theorem background_failures (wv wa wf wu : World) (cf : AppState)
    (id title answer answer_id fanswer fanswer_id ftitle : value)
    (user_id targetId targetType value : value)
    (ev ea ef eu : exn) :
  truthy (token (app wv)) = true ->
  member (user (app wv)) (js "id") = Some user_id ->
  outcome_of wv (vote_request (app wv) user_id targetId targetType value)
    = inl ev ->
  member fanswer (js "id") = Some fanswer_id ->
  member (currentQuestion cf) (js "title") = Some ftitle ->
  outcome_of wf (fact_check_request cf fanswer_id ftitle) = inl ef ->
  truthy (token (app wa)) = true ->
  truthy (currentQuestion (app wa)) = true ->
  member (currentQuestion (app wa)) (js "id") = Some id ->
  member (currentQuestion (app wa)) (js "title") = Some title ->
  outcome_of wa (create_answer_request (app wa) id) = inr answer ->
  member answer (js "id") = Some answer_id ->
  outcome_of (served wa (create_answer_request (app wa) id))
    (fact_check_request (app wa) answer_id title) = inl ea ->
  outcome_of wu (me_request (app wu)) = inl eu ->
  (let h := fun c => handleVote c targetId targetType value in
   trace h wv
     = [Fetch (vote_request (app wv) user_id targetId targetType value);
        ConsoleError (js "Vote failed:") ev]
   /\ app (after h wv) = app wv
   /\ localStorage_token (after h wv) = localStorage_token wv)
  /\ (let o := factCheck cf fanswer wf in
      events o = [Fetch (fact_check_request cf fanswer_id ftitle);
                  ConsoleError (js "Fact-check failed:") ef]
      /\ result o = inr tt
      /\ app (world o) = app wf
      /\ localStorage_token (world o) = localStorage_token wf)
  /\ (let c := app wa in
      let w1 := served wa (create_answer_request c id) in
      let w2 := served w1 (fact_check_request c answer_id title) in
      let q := outcome_of w2 (question_request c id) in
      let a := outcome_of (served w2 (question_request c id))
                 (answers_request c id) in
      let w' := after (handleCreateAnswer ImmigrantConnect) wa in
      trace (handleCreateAnswer ImmigrantConnect) wa
        = [PreventDefault;
           Fetch (create_answer_request c id);
           Fetch (fact_check_request c answer_id title);
           ConsoleError (js "Fact-check failed:") ea;
           Fetch (question_request c id);
           Fetch (answers_request c id)]
          ++ match first_error q a with
             | Some e =>
                 [ConsoleError (js "Failed to fetch question details:") e]
             | None => []
             end
      /\ app w' = with_loading false
                    (store_question q a
                       (with_answerContent [] (with_loading true c)))
      /\ localStorage_token w' = localStorage_token wa)
  /\ (let w' := after fetchUser wu in
      trace fetchUser wu
        = [Fetch (me_request (app wu));
           ConsoleError (js "Failed to fetch user:") eu]
      /\ localStorage_token w' = None
      /\ token (app w') = VNull
      /\ render (app w') = AuthScreen (authMode (app wu))).
Proof.
  intros Htoken Huser Hvote Hfid Hftitle Hfact Hatoken Hopen Hid Htitle
    Hpost Haid Hcheck Hme.
  split; [|split; [|split]].
  - assert (Hrun : dispatch (fun c => handleVote c targetId targetType value) wv
      = {| result := inr tt;
           world := served wv (vote_request (app wv) user_id targetId
                                 targetType value);
           events :=
             [Fetch (vote_request (app wv) user_id targetId targetType value);
              ConsoleError (js "Vote failed:") ev] |}).
    { unfold handleVote. monad_unfold. rewrite Htoken, Huser. cbn [negb].
      call_api. expose Hvote. rewrite Hvote. reflexivity. }
    cbv zeta. unfold trace, after. rewrite Hrun. repeat split.
  - cbv zeta. unfold factCheck. monad_unfold. rewrite Hfid, Hftitle.
    call_api. expose Hfact. rewrite Hfact. repeat split.
  - cbv zeta.
    assert (Hrun : dispatch (handleCreateAnswer ImmigrantConnect) wa
      = let c := app wa in
        let w1 := served wa (create_answer_request c id) in
        let w2 := served w1 (fact_check_request c answer_id title) in
        let q := outcome_of w2 (question_request c id) in
        let a := outcome_of (served w2 (question_request c id))
                   (answers_request c id) in
        {| result := inr tt;
           world :=
             {| app := with_loading false
                         (store_question q a
                            (with_answerContent [] (with_loading true c)));
                localStorage_token := localStorage_token wa;
                backend := backend (served (served w2 (question_request c id))
                                      (answers_request c id)) |};
           events :=
             [PreventDefault;
              Fetch (create_answer_request c id);
              Fetch (fact_check_request c answer_id title);
              ConsoleError (js "Fact-check failed:") ea;
              Fetch (question_request c id);
              Fetch (answers_request c id)]
             ++ match first_error q a with
                | Some e =>
                    [ConsoleError (js "Failed to fetch question details:") e]
                | None => []
                end |}).
    { unfold handleCreateAnswer, factCheck. monad_unfold.
      rewrite Hatoken, Hopen, Hid. cbn [negb orb]. call_api.
      expose Hpost. rewrite Hpost. record_simpl.
      rewrite Haid, Htitle. call_api.
      expose Hcheck. rewrite Hcheck. record_simpl.
      rewrite fetchQuestion_run. record_simpl.
      rewrite app_nil_r. reflexivity. }
    unfold trace, after. rewrite Hrun. repeat split.
  - cbv zeta. unfold trace, after, dispatch. rewrite fetchUser_run.
    record_simpl. rewrite Hme. repeat split.
Qed.

(* ================================================================== *)
(** ** What logging out leaves *)

Lemma bind_keeps_transcript (m : M unit) (k : unit -> M unit) :
  keeps_transcript m -> (forall u, keeps_transcript (k u)) ->
  keeps_transcript (bind m k).
Proof.
  intros Hm Hk w. rewrite bind_run.
  destruct (result (m w)) as [e|u]; record_simpl; [apply Hm|].
  rewrite Hk. apply Hm.
Qed.

Lemma on_keeps_transcript (handler : AppState -> M unit) :
  keeps_transcript (dispatch handler) -> keeps_transcript (on handler).
Proof.
  intros Hh w. unfold on. rewrite bind_run.
  destruct (result (dispatch handler w)); record_simpl; [apply Hh|].
  destruct (rerender_keeps (token (app w)) (world (dispatch handler w)))
    as (Hchat & _).
  rewrite Hchat. apply Hh.
Qed.

Lemma handleAuth_keeps_transcript (v : Variant) :
  keeps_transcript (dispatch (handleAuth v)).
Proof.
  intros w. unfold handleAuth. monad_unfold. call_api.
  destruct (api_result _) as [e|response]; record_simpl; [reflexivity|].
  destruct (member response (js "access_token")); reflexivity.
Qed.

Lemma log_out_and_in_transcript (v : Variant) (username password : jsstring) :
  keeps_transcript (log_out_and_in v username password).
Proof.
  unfold log_out_and_in.
  repeat (apply bind_keeps_transcript; [|intros _]);
    apply on_keeps_transcript;
    try apply handleAuth_keeps_transcript; intros w; reflexivity.
Qed.

Lemma bind_never_throws (m : M unit) (k : unit -> M unit) :
  never_throws m -> (forall u, never_throws (k u)) -> never_throws (bind m k).
Proof.
  intros Hm Hk w. rewrite bind_run, Hm. record_simpl. apply Hk.
Qed.

Lemma useEffect_token_never_throws : never_throws (dispatch useEffect_token).
Proof.
  intros w. unfold dispatch, useEffect_token.
  destruct (truthy (token (app w))).
  - rewrite bind_run, fetchUser_run. record_simpl.
    now rewrite fetchQuestions_run.
  - now rewrite fetchQuestions_run.
Qed.

Lemma rerender_never_throws (before : value) : never_throws (rerender before).
Proof.
  intros w. unfold rerender.
  destruct (Object_is before (token (app w))); [reflexivity|].
  rewrite bind_run, useEffect_token_never_throws. record_simpl.
  destruct (Object_is _ _); [reflexivity|].
  apply useEffect_token_never_throws.
Qed.

Lemma on_never_throws (handler : AppState -> M unit) :
  never_throws (dispatch handler) -> never_throws (on handler).
Proof.
  intros Hh w. unfold on. rewrite bind_run, Hh. record_simpl.
  apply rerender_never_throws.
Qed.

Lemma handleAuth_never_throws (v : Variant) :
  never_throws (dispatch (handleAuth v)).
Proof.
  intros w. unfold handleAuth. monad_unfold. call_api.
  destruct (api_result _) as [e|response]; record_simpl; [reflexivity|].
  destruct (member response (js "access_token")); reflexivity.
Qed.

Lemma on_openChat_open (w : World) :
  isChatOpen (app (world (on openChat w))) = true.
Proof.
  unfold on. rewrite bind_run.
  change (dispatch openChat w) with
    {| result := inr tt; world := after openChat w; events := [] |}.
  record_simpl.
  destruct (rerender_keeps (token (app w)) (after openChat w))
    as (_ & Hopen & _).
  now rewrite Hopen.
Qed.

Lemma log_out_and_in_open (v : Variant) (username password : jsstring)
    (w : World) :
  isChatOpen (app (world (log_out_and_in v username password w))) = true.
Proof.
  unfold log_out_and_in.
  rewrite bind_run, on_never_throws by (intros w0; reflexivity). record_simpl.
  rewrite bind_run, on_never_throws by (intros w0; reflexivity). record_simpl.
  rewrite bind_run, on_never_throws by (intros w0; reflexivity). record_simpl.
  rewrite bind_run, on_never_throws by apply handleAuth_never_throws.
  record_simpl. apply on_openChat_open.
Qed.

(** C10.  [logout] leaves the question list, the chat transcript, the
    search query and every form buffer as they were.  After logging out,
    logging in again and opening the chat panel, the transcript of the
    session before is still in its cell, and is what the panel shows. *)
Theorem logout_keeps_the_rest (v : Variant) (w : World)
    (username password : jsstring) :
  (let w' := after logout w in
   questions (app w') = questions (app w)
   /\ chatMessages (app w') = chatMessages (app w)
   /\ searchQuery (app w') = searchQuery (app w)
   /\ chatInput (app w') = chatInput (app w)
   /\ answerContent (app w') = answerContent (app w)
   /\ loginData (app w') = loginData (app w)
   /\ registerData (app w') = registerData (app w)
   /\ questionData (app w') = questionData (app w)
   /\ isChatOpen (app w') = isChatOpen (app w)
   /\ authMode (app w') = authMode (app w)
   /\ loading (app w') = loading (app w)
   /\ selectedCategory (app w') = selectedCategory (app w))
  /\ (let w' := world (log_out_and_in v username password w) in
      chatMessages (app w') = chatMessages (app w)
      /\ isChatOpen (app w') = true
      /\ forall page chat,
           render (app w') = MainScreen page chat ->
           chat = Some (chatMessages (app w))).
Proof.
  split; [repeat split|].
  cbv zeta.
  pose proof (log_out_and_in_transcript v username password w) as Hchat.
  pose proof (log_out_and_in_open v username password w) as Hopen.
  split; [exact Hchat|]. split; [exact Hopen|].
  intros page chat Hrender. unfold render in Hrender.
  destruct (truthy (token _)); cbn [negb] in Hrender; [|discriminate].
  rewrite Hopen, Hchat in Hrender. now inversion Hrender.
Qed.

(* ================================================================== *)
(** ** Asking a question *)

(** C1.  With a token, [handleCreateQuestion] sends one creation request.
    Its [tags] are the pieces of the tags field between commas, trimmed,
    the empty ones dropped; ImmigrantConnect adds the selected category as
    one more tag at the end, QAPlatform adds nothing. *)
Theorem handleCreateQuestion_tags (v : Variant) (w : World)
    (field : jsstring) :
  truthy (token (app w)) = true ->
  lookup (js "tags") (questionData (app w)) = VStr field ->
  let c := app w in
  let tags := tags_of field in
  let sent := create_question_request v c tags in
  requests (trace (handleCreateQuestion v) w)
    = sent :: match outcome_of w sent with
              | inr _ => [list_request c]
              | inl _ => []
              end
  /\ url sent = API_BASE_URL ++ js "/api/questions"
  /\ request_method sent = Some (js "POST")
  /\ request_body sent
     = Some (JSON_stringify (question_body v (questionData c) tags))
  /\ member (question_body v (questionData c) tags) (js "tags")
     = Some (VArr (List.map VStr tags
                   ++ match v with
                      | ImmigrantConnect =>
                          [lookup (js "category") (questionData c)]
                      | QAPlatform => []
                      end))
  /\ TagList field tags.
Proof.
  intros Htoken Hfield c tags sent.
  split; [|split; [reflexivity|split; [reflexivity|split; [reflexivity|split]]]].
  - subst sent tags c. unfold handleCreateQuestion, String_split.
    monad_unfold. rewrite Htoken, Hfield. cbn [negb]. call_api.
    fold (tags_of field).
    fold (create_question_request v (app w) (tags_of field)).
    unfold outcome_of.
    destruct (api_result _) as [e|created]; record_simpl; [reflexivity|].
    rewrite fetchQuestions_run. record_simpl.
    rewrite app_nil_r. change (requests (PreventDefault :: ?l)) with (requests l).
    now rewrite !requests_fetch, requests_logged.
  - destruct v; cbn; [reflexivity|]. now rewrite app_nil_r.
  - apply tags_of_TagList.
Qed.

(* ================================================================== *)
(** ** Searching *)

(** C6, amended.  With a query that is empty or white space only,
    [handleSearch] asks for [/api/questions], and a successful answer
    becomes the question list.  With any other query that has a URL-encoded
    form it asks for [/api/search?q=] followed by that form, and a
    successful answer replaces the question list.  A query that is not
    blank and has no URL-encoded form (it holds an unpaired surrogate) makes
    [encodeURIComponent] throw: no request is sent, the error is logged and
    the page is left as it was. *)
Theorem handleSearch_requests (w1 w2 w3 : World) (encoded : jsstring) :
  blank (searchQuery (app w1)) = true ->
  blank (searchQuery (app w2)) = false ->
  encodeURIComponent (searchQuery (app w2)) = Some encoded ->
  blank (searchQuery (app w3)) = false ->
  encodeURIComponent (searchQuery (app w3)) = None ->
  (requests (trace handleSearch w1) = [list_request (app w1)]
   /\ url (list_request (app w1)) = API_BASE_URL ++ js "/api/questions"
   /\ request_method (list_request (app w1)) = None
   /\ forall all,
        outcome_of w1 (list_request (app w1)) = inr all ->
        questions (app (after handleSearch w1)) = all)
  /\ (requests (trace handleSearch w2) = [search_request (app w2) encoded]
      /\ url (search_request (app w2) encoded)
         = API_BASE_URL ++ js "/api/search?q=" ++ encoded
      /\ request_method (search_request (app w2) encoded) = None
      /\ forall results,
           outcome_of w2 (search_request (app w2) encoded) = inr results ->
           questions (app (after handleSearch w2)) = results)
  /\ (requests (trace handleSearch w3) = []
      /\ trace handleSearch w3
         = [ConsoleError (js "Search failed:") (Native URIError_malformed)]
      /\ after handleSearch w3 = w3).
Proof.
  intros Hblank Hquery Hencoded Hquery3 Hnone. split; [|split].
  - assert (Hrun : dispatch handleSearch w1 = fetchQuestions (app w1) w1).
    { unfold dispatch, handleSearch. now rewrite truthy_trim, Hblank. }
    unfold trace, after. rewrite Hrun, fetchQuestions_run. record_simpl.
    split; [now rewrite requests_fetch, requests_logged|].
    split; [reflexivity|]. split; [reflexivity|].
    intros all Hall. now rewrite Hall.
  - assert (Hrun : dispatch handleSearch w2
      = {| result := inr tt;
           world :=
             {| app := store_questions
                         (outcome_of w2 (search_request (app w2) encoded))
                         (app w2);
                localStorage_token := localStorage_token w2;
                backend := backend
                             (served w2 (search_request (app w2) encoded)) |};
           events := Fetch (search_request (app w2) encoded) ::
                     match outcome_of w2 (search_request (app w2) encoded) with
                     | inl e => [ConsoleError (js "Search failed:") e]
                     | inr _ => []
                     end |}).
    { unfold handleSearch. monad_unfold.
      rewrite truthy_trim, Hquery, Hencoded. cbn [negb]. call_api.
      unfold outcome_of, search_request, served, GET.
      destruct (api_result _); reflexivity. }
    unfold trace, after. rewrite Hrun. record_simpl.
    split; [now rewrite requests_fetch, requests_logged|].
    split; [reflexivity|]. split; [reflexivity|].
    intros results Hresults. now rewrite Hresults.
  - assert (Hrun : dispatch handleSearch w3
      = {| result := inr tt;
           world := w3;
           events := [ConsoleError (js "Search failed:")
                        (Native URIError_malformed)] |}).
    { unfold handleSearch. monad_unfold.
      rewrite truthy_trim, Hquery3, Hnone. cbn [negb].
      destruct w3. reflexivity. }
    unfold trace, after. rewrite Hrun. record_simpl. repeat split.
Qed.

(* ================================================================== *)
(** ** The gateway *)

(** What [apiRequest] does keep of its contract: one request, with the
    bearer header exactly when the token is truthy (no call site passes
    headers of its own); the parsed body of an OK response; for a response
    that is not OK, the detail of the payload, ["Network error"] when the
    body is not JSON, ["Request failed"] when the payload is not [null] and
    has no truthy detail. *)
Lemma apiRequest_contract (c : AppState) (path : jsstring) (options : Options)
    (w : World) (r : Response) :
  let rq := config_of c path options in
  let o := apiRequest c path options w in
  snd (serve (backend w) rq) = Resolved r ->
  events o = [Fetch rq]
  /\ (headers options = None ->
      request_headers rq
      = (js "Content-Type", js "application/json")
        :: if truthy (token c)
           then [(js "Authorization", js "Bearer " ++ toString (token c))]
           else [])
  /\ (ok r = true -> forall v, json r = Some v -> result o = inr v)
  /\ (ok r = false -> json r = None ->
      result o = inl (Error (js "Network error")))
  /\ (ok r = false ->
      forall payload detail,
        json r = Some payload ->
        member payload (js "detail") = Some detail ->
        truthy detail = true ->
        result o = inl (Error (toString detail)))
  /\ (ok r = false ->
      forall payload detail,
        json r = Some payload ->
        member payload (js "detail") = Some detail ->
        truthy detail = false ->
        result o = inl (Error (js "Request failed"))).
Proof.
  intros rq o Hanswer. subst o rq. rewrite apiRequest_run. record_simpl.
  rewrite Hanswer. unfold api_result, failure_of.
  split; [reflexivity|]. split.
  { intros Hnone. unfold config_of, config_headers. cbn [request_headers].
    rewrite Hnone. destruct (truthy (token c)); reflexivity. }
  split; [intros Hok v Hv; now rewrite Hok, Hv|].
  split; [intros Hok Hjson; now rewrite Hok, Hjson|].
  split; intros Hok payload detail Hjson Hdetail Htruthy;
    now rewrite Hok, Hjson, Hdetail, Htruthy.
Qed.

(* ================================================================== *)
(** ** Reasoning along the structure of a handler *)

Lemma try_catch_run {A} (m : M A) (handler : exn -> M A) (w : World) :
  try_catch m handler w =
  match result (m w) with
  | inl e =>
      {| result := result (handler e (world (m w)));
         world := world (handler e (world (m w)));
         events := events (m w) ++ events (handler e (world (m w))) |}
  | inr a => m w
  end.
Proof.
  unfold try_catch. destruct (m w) as [[e|a] w1 ev]; [|reflexivity].
  cbn. now destruct (handler e w1).
Qed.

Lemma start_run {A} (m : M A) (w : World) :
  start m w
  = {| result := inr (result (m w)); world := world (m w);
       events := events (m w) |}.
Proof. unfold start. now destruct (m w). Qed.

Section SendsOnly.

Variable P : Request -> Prop.

Lemma sends_only_bind {A B} (m : M A) (k : A -> M B) :
  sends_only P m -> (forall a, sends_only P (k a)) -> sends_only P (bind m k).
Proof.
  intros Hm Hk w. rewrite bind_run.
  destruct (result (m w)) as [e|a]; record_simpl; [apply Hm|].
  rewrite requests_app. apply Forall_app. split; [apply Hm|apply Hk].
Qed.

Lemma sends_only_try_catch {A} (m : M A) (handler : exn -> M A) :
  sends_only P m -> (forall e, sends_only P (handler e)) ->
  sends_only P (try_catch m handler).
Proof.
  intros Hm Hh w. rewrite try_catch_run.
  destruct (result (m w)) as [e|a]; record_simpl; [|apply Hm].
  rewrite requests_app. apply Forall_app. split; [apply Hm|apply Hh].
Qed.

Lemma sends_only_start {A} (m : M A) :
  sends_only P m -> sends_only P (start m).
Proof. intros Hm w. rewrite start_run. apply Hm. Qed.

Lemma sends_only_ret {A} (a : A) : sends_only P (ret a).
Proof. intros w. constructor. Qed.

Lemma sends_only_throw {A} (e : exn) : sends_only P (@throw A e).
Proof. intros w. constructor. Qed.

Lemma sends_only_update (f : AppState -> AppState) : sends_only P (update f).
Proof. intros w. constructor. Qed.

Lemma sends_only_set_localStorage (o : option jsstring) :
  sends_only P (set_localStorage o).
Proof. intros w. constructor. Qed.

Lemma sends_only_emit (e : event) :
  is_fetch e = false -> sends_only P (emit e).
Proof. intros He w. destruct e; try discriminate; constructor. Qed.

Lemma sends_only_apiRequest (c : AppState) (path : jsstring)
    (options : Options) :
  P (config_of c path options) -> sends_only P (apiRequest c path options).
Proof.
  intros Hp w. rewrite apiRequest_run. record_simpl.
  rewrite requests_fetch. now constructor.
Qed.

End SendsOnly.

Ltac unfold_handlers :=
  unfold handler_of, onValueChange_authMode, onChange_loginData,
    onChange_registerData, onChange_searchQuery, onChange_questionData,
    onChange_answerContent, onChange_chatInput, backToQuestions,
    openQuestion, openChat, closeChat, logout, handleAuth,
    handleCreateQuestion, handleCreateAnswer, factCheck, handleVote,
    handleChatMessage, handleSearch, useEffect_token, fetchUser,
    fetchQuestions, fetchQuestion;
  unfold setQuestions, setCurrentQuestion, setAnswers, setUser, setToken,
    setLoading, setIsChatOpen, setChatInput, setSearchQuery, setLoginData,
    setRegisterData, setQuestionData, setAnswerContent, setChatMessages,
    setAuthMode, localStorage_setItem, localStorage_removeItem,
    preventDefault, alert, console_error, get_prop, String_split, await.

Ltac branch tac :=
  match goal with
  | |- ?G => match G with
             | context [if ?b then _ else _] => destruct b
             | context [match ?x with _ => _ end] => destruct x
             end
  end.

Ltac sends :=
  repeat first
    [ apply sends_only_apiRequest
    | apply sends_only_ret
    | apply sends_only_throw
    | apply sends_only_update
    | apply sends_only_set_localStorage
    | apply sends_only_emit; reflexivity
    | apply sends_only_start
    | apply sends_only_try_catch; [|intros ?]
    | apply sends_only_bind; [|intros ?]
    | match goal with
      | |- sends_only _ (if ?b then _ else _) => destruct b
      | |- sends_only _ (match ?x with _ => _ end) => destruct x
      end ].

(** X1.  Whatever the user does, every request of the handler goes to the
    configured backend, with the JSON content type and with the bearer
    header exactly when the render that made the handler had a token; a
    request has no body, or is a POST with one. *)
Theorem every_request_is_well_formed (v : Variant) (a : Action) (w : World) :
  Forall (well_formed (app w)) (requests (trace (handler_of v a) w)).
Proof.
  unfold trace, dispatch.
  assert (Hall : forall c, sends_only (well_formed c) (handler_of v a c));
    [|apply Hall].
  intros c.
  assert (Hheaders : forall path options,
             headers options = None ->
             request_headers (config_of c path options) = standard_headers c).
  { intros path options Hnone. unfold config_of, config_headers,
      standard_headers. cbn [request_headers]. rewrite Hnone.
    destruct (truthy (token c)); reflexivity. }
  destruct a; unfold_handlers; sends;
    (split; [now apply Hheaders|split; [eexists; reflexivity|]]);
    first [ left; split; reflexivity
          | right; split; [reflexivity|eexists; reflexivity] ].
Qed.

(* ================================================================== *)
(** ** No handler rejects *)

Lemma try_catch_never_throws (m : M unit) (handler : exn -> M unit) :
  (forall e, never_throws (handler e)) -> never_throws (try_catch m handler).
Proof.
  intros Hh w. rewrite try_catch_run.
  destruct (result (m w)) as [e|[]] eqn:Hm; [apply Hh|exact Hm].
Qed.

Lemma ret_never_throws : never_throws (ret tt).
Proof. intros w. reflexivity. Qed.

Lemma update_never_throws (f : AppState -> AppState) : never_throws (update f).
Proof. intros w. reflexivity. Qed.

Lemma emit_never_throws (e : event) : never_throws (emit e).
Proof. intros w. reflexivity. Qed.

Lemma set_localStorage_never_throws (o : option jsstring) :
  never_throws (set_localStorage o).
Proof. intros w. reflexivity. Qed.

Ltac total :=
  repeat first
    [ apply ret_never_throws
    | apply update_never_throws
    | apply emit_never_throws
    | apply set_localStorage_never_throws
    | apply try_catch_never_throws; intros ?
    | apply bind_never_throws; [|intros ?]
    | match goal with
      | |- never_throws (if ?b then _ else _) => destruct b
      | |- never_throws (match ?x with _ => _ end) => destruct x
      end
    | progress cbv zeta ].

Lemma handler_never_throws (v : Variant) (a : Action) (c : AppState) :
  never_throws (handler_of v a c).
Proof. destruct a; unfold_handlers; total. Qed.

Lemma session_never_throws (v : Variant) (actions : list Action) :
  never_throws (session v actions).
Proof.
  induction actions as [|a rest IH]; [apply ret_never_throws|].
  cbn [session]. apply bind_never_throws; [|intros _; exact IH].
  apply on_never_throws. intros w. apply handler_never_throws.
Qed.

(** X2.  No handler of the page ends with an error, whatever the backend
    answers and whatever the cells hold: every failure is caught inside.
    The same holds with the renders that follow, and for any sequence of
    actions. *)
Theorem no_handler_rejects (v : Variant) (a : Action)
    (actions : list Action) (w : World) :
  result (dispatch (handler_of v a) w) = inr tt
  /\ result (on (handler_of v a) w) = inr tt
  /\ result (session v actions w) = inr tt.
Proof.
  split; [apply handler_never_throws|].
  split; [|apply session_never_throws].
  apply on_never_throws. intros w0. apply handler_never_throws.
Qed.

(* ================================================================== *)
(** ** Who writes the token *)

Section Always.

Variable R : World -> World -> Prop.
Hypothesis R_refl : forall w, R w w.
Hypothesis R_trans : forall w1 w2 w3, R w1 w2 -> R w2 w3 -> R w1 w3.
Hypothesis R_backend : forall w s, R w (with_backend s w).

Lemma always_ret {A} (a : A) : always R (ret a).
Proof. intros w. apply R_refl. Qed.

Lemma always_throw {A} (e : exn) : always R (@throw A e).
Proof. intros w. apply R_refl. Qed.

Lemma always_emit (e : event) : always R (emit e).
Proof. intros w. apply R_refl. Qed.

Lemma always_bind {A B} (m : M A) (k : A -> M B) :
  always R m -> (forall a, always R (k a)) -> always R (bind m k).
Proof.
  intros Hm Hk w. rewrite bind_run.
  destruct (result (m w)) as [e|a]; record_simpl; [apply Hm|].
  eapply R_trans; [apply Hm|apply Hk].
Qed.

Lemma always_try_catch {A} (m : M A) (handler : exn -> M A) :
  always R m -> (forall e, always R (handler e)) ->
  always R (try_catch m handler).
Proof.
  intros Hm Hh w. rewrite try_catch_run.
  destruct (result (m w)) as [e|a]; record_simpl; [|apply Hm].
  eapply R_trans; [apply Hm|apply Hh].
Qed.

Lemma always_start {A} (m : M A) : always R m -> always R (start m).
Proof. intros Hm w. rewrite start_run. apply Hm. Qed.

Lemma always_apiRequest (c : AppState) (path : jsstring) (options : Options) :
  always R (apiRequest c path options).
Proof. intros w. rewrite apiRequest_run. apply R_backend. Qed.

End Always.

Lemma same_session_refl (w : World) : same_session w w.
Proof. split; reflexivity. Qed.

Lemma same_session_trans (w1 w2 w3 : World) :
  same_session w1 w2 -> same_session w2 w3 -> same_session w1 w3.
Proof. unfold same_session. intros [] []. split; congruence. Qed.

Lemma same_session_backend (w : World) (s : Srv) :
  same_session w (with_backend s w).
Proof. split; reflexivity. Qed.

Lemma same_session_update (f : AppState -> AppState) :
  (forall s, token (f s) = token s) -> always same_session (update f).
Proof. intros Hf w. split; [apply Hf|reflexivity]. Qed.

Ltac frame :=
  repeat first
    [ apply (always_apiRequest same_session same_session_backend)
    | apply (always_ret same_session same_session_refl)
    | apply (always_throw same_session same_session_refl)
    | apply (always_emit same_session same_session_refl)
    | apply same_session_update; intros ?; reflexivity
    | apply (always_start same_session)
    | apply (always_try_catch same_session same_session_trans); [|intros ?]
    | apply (always_bind same_session same_session_trans); [|intros ?]
    | match goal with
      | |- always _ (if ?b then _ else _) => destruct b
      | |- always _ (match ?x with _ => _ end) => destruct x
      end
    | progress cbv zeta ].

Lemma fetchQuestions_same_session (c : AppState) :
  always same_session (fetchQuestions c).
Proof. unfold_handlers; frame. Qed.

(** X3.  Only the authentication form and the logout button write the
    token: every other handler leaves the token and its stored copy as they
    were, on every path. *)
Theorem only_auth_and_logout_write_the_token (v : Variant) (a : Action)
    (w : World) :
  writes_session a = false ->
  same_session w (after (handler_of v a) w).
Proof.
  intros Ha. unfold after, dispatch.
  assert (Hall : forall c, always same_session (handler_of v a c));
    [|apply Hall].
  intros c. destruct a; try discriminate; unfold_handlers; frame.
Qed.

(* ================================================================== *)
(** ** The stored token mirrors the token *)

Lemma same_session_mirrored (w w' : World) :
  same_session w w' -> session_mirrored w -> session_mirrored w'.
Proof.
  unfold same_session, session_mirrored. intros [Ht Hs]. now rewrite Ht, Hs.
Qed.

Lemma fetchUser_mirrored (c : AppState) (w : World) :
  session_mirrored w -> session_mirrored (world (fetchUser c w)).
Proof.
  intros Hw. rewrite fetchUser_run. unfold session_mirrored in *.
  record_simpl. destruct (outcome_of w (me_request c)); [reflexivity|exact Hw].
Qed.

Lemma useEffect_token_mirrored (w : World) :
  session_mirrored w -> session_mirrored (world (dispatch useEffect_token w)).
Proof.
  intros Hw. unfold dispatch, useEffect_token.
  destruct (truthy (token (app w))).
  - rewrite bind_run.
    replace (result (fetchUser (app w) w)) with (@inr exn unit tt)
      by now rewrite fetchUser_run.
    record_simpl.
    eapply same_session_mirrored; [apply fetchQuestions_same_session|].
    now apply fetchUser_mirrored.
  - eapply same_session_mirrored; [apply fetchQuestions_same_session|exact Hw].
Qed.

Lemma rerender_mirrored (before : value) (w : World) :
  session_mirrored w -> session_mirrored (world (rerender before w)).
Proof.
  intros Hw. unfold rerender.
  destruct (Object_is before (token (app w))); [exact Hw|].
  rewrite bind_run, useEffect_token_never_throws. record_simpl.
  destruct (Object_is _ _); repeat apply useEffect_token_mirrored; exact Hw.
Qed.

Lemma handleAuth_mirrored (v : Variant) (w : World) :
  session_mirrored w -> session_mirrored (after (handleAuth v) w).
Proof.
  intros Hw. unfold after, handleAuth. monad_unfold. call_api.
  destruct (api_result _) as [e|response]; record_simpl; [exact Hw|].
  destruct (member response (js "access_token")); record_simpl;
    [reflexivity|exact Hw].
Qed.

Lemma handler_mirrored (v : Variant) (a : Action) (w : World) :
  session_mirrored w -> session_mirrored (after (handler_of v a) w).
Proof.
  intros Hw. destruct (writes_session a) eqn:Ha.
  - destruct a; try discriminate; cbn [handler_of].
    + now apply handleAuth_mirrored.
    + reflexivity.
  - eapply same_session_mirrored; [|exact Hw].
    now apply only_auth_and_logout_write_the_token.
Qed.

Lemma on_mirrored (v : Variant) (a : Action) (w : World) :
  session_mirrored w -> session_mirrored (world (on (handler_of v a) w)).
Proof.
  intros Hw. unfold on. rewrite bind_run.
  replace (result (dispatch (handler_of v a) w)) with (@inr exn unit tt)
    by (symmetry; apply handler_never_throws).
  record_simpl. apply rerender_mirrored. now apply handler_mirrored.
Qed.

(** X4.  The first render reads the token from the store, and from then on,
    through the effect of the first render and any sequence of actions and
    whatever the backend answers, the stored token is the text of the
    token, and nothing is stored only when the token is [null]. *)
Theorem stored_token_mirrors_token (v : Variant) (actions : list Action)
    (w : World) :
  session_mirrored w ->
  session_mirrored (world (dispatch useEffect_token w))
  /\ session_mirrored (world (session v actions w)).
Proof.
  intros Hw. split; [now apply useEffect_token_mirrored|].
  revert w Hw. induction actions as [|a rest IH]; intros w Hw; [exact Hw|].
  cbn [session]. rewrite bind_run.
  replace (result (on (handler_of v a) w)) with (@inr exn unit tt)
    by (symmetry; apply on_never_throws; intros w0;
        apply handler_never_throws).
  record_simpl. apply IH. now apply on_mirrored.
Qed.

(* ================================================================== *)
(** ** Opening a question *)

(** X5.  Opening a question always sends both requests, for the question
    and for its answers, and never shows one without the other: either
    both calls succeed and both cells are replaced by what they returned,
    or no cell changes and one error is logged. *)
Theorem openQuestion_all_or_nothing (questionId : value) (w : World) :
  let c := app w in
  let w' := after (openQuestion questionId) w in
  requests (trace (openQuestion questionId) w)
    = [question_request c questionId; answers_request c questionId]
  /\ localStorage_token w' = localStorage_token w
  /\ ((exists questionData answersData,
          outcome_of w (question_request c questionId) = inr questionData
          /\ outcome_of (served w (question_request c questionId))
               (answers_request c questionId) = inr answersData
          /\ app w' = with_answers answersData
                        (with_currentQuestion questionData c)
          /\ trace (openQuestion questionId) w
             = [Fetch (question_request c questionId);
                Fetch (answers_request c questionId)])
      \/ (app w' = c
          /\ exists e,
               trace (openQuestion questionId) w
               = [Fetch (question_request c questionId);
                  Fetch (answers_request c questionId);
                  ConsoleError (js "Failed to fetch question details:") e])).
Proof.
  cbv zeta. unfold trace, after, dispatch, openQuestion.
  rewrite fetchQuestion_run. record_simpl.
  split; [now rewrite !requests_fetch, requests_logged_first|].
  split; [reflexivity|].
  destruct (outcome_of w _) as [e|questionData];
    destruct (outcome_of (served w _) _) as [e'|answersData]; cbn;
    eauto 8.
Qed.

(* ================================================================== *)
(** ** Signing in, further *)

Lemma jsstring_eqb_refl (a : jsstring) : jsstring_eqb a a = true.
Proof. induction a as [|x a IH]; cbn; [reflexivity|]. now rewrite N.eqb_refl. Qed.

Lemma jsstring_eqb_eq (a b : jsstring) : jsstring_eqb a b = true <-> a = b.
Proof.
  split; [|intros ->; apply jsstring_eqb_refl].
  revert b. induction a as [|x a IH]; intros [|y b]; cbn; try discriminate;
    [reflexivity|].
  intros H. apply andb_true_iff in H. destruct H as [Hx Hab].
  apply N.eqb_eq in Hx. subst. f_equal. now apply IH.
Qed.

Lemma falsy_is_not_text (v : value) (t : jsstring) :
  truthy v = false -> t <> [] -> Object_is v (VStr t) = false.
Proof.
  intros Hv Ht. destruct v; try reflexivity. cbn in *.
  destruct s; [|discriminate]. destruct t; [contradiction|reflexivity].
Qed.

Lemma config_of_token (c c' : AppState) (path : jsstring) (options : Options) :
  token c = token c' -> config_of c path options = config_of c' path options.
Proof.
  intros Ht. unfold config_of, config_headers. now rewrite Ht.
Qed.

Lemma useEffect_token_requests (w : World) :
  requests (events (dispatch useEffect_token w))
  = if truthy (token (app w))
    then [me_request (app w); list_request (app w)]
    else [list_request (app w)].
Proof.
  unfold dispatch, useEffect_token. destruct (truthy (token (app w))).
  - rewrite bind_run, fetchUser_run. record_simpl.
    rewrite fetchQuestions_run. record_simpl.
    now rewrite requests_fetch, requests_app, requests_logged,
      requests_fetch, requests_logged.
  - rewrite fetchQuestions_run. record_simpl.
    now rewrite requests_fetch, requests_logged.
Qed.

Lemma useEffect_token_token (w : World) :
  token (app (world (dispatch useEffect_token w)))
  = if truthy (token (app w))
    then match outcome_of w (me_request (app w)) with
         | inr _ => token (app w)
         | inl _ => VNull
         end
    else token (app w).
Proof.
  unfold dispatch, useEffect_token. destruct (truthy (token (app w))).
  - rewrite bind_run, fetchUser_run. record_simpl.
    rewrite fetchQuestions_run. record_simpl.
    destruct (outcome_of w (me_request (app w)));
      match goal with
      | |- context [store_questions ?o ?s] =>
          destruct (store_questions_frame o s) as (Ht & _); now rewrite Ht
      end.
  - rewrite fetchQuestions_run. record_simpl.
    match goal with
    | |- context [store_questions ?o ?s] =>
        destruct (store_questions_frame o s) as (Ht & _); now rewrite Ht
    end.
Qed.

Lemma rerender_requests (before : value) (w : World) :
  requests (events (rerender before w))
  = if Object_is before (token (app w)) then []
    else
      let w' := world (dispatch useEffect_token w) in
      requests (events (dispatch useEffect_token w))
      ++ if Object_is (token (app w)) (token (app w')) then []
         else requests (events (dispatch useEffect_token w')).
Proof.
  unfold rerender. destruct (Object_is before (token (app w))); [reflexivity|].
  rewrite bind_run, useEffect_token_never_throws. record_simpl. cbv zeta.
  rewrite requests_app. f_equal.
  now destruct (Object_is _ _).
Qed.

(** X6.  On the authentication screen, a call that returns a text as
    [access_token] puts it in the token cell and in the store, empties both
    forms, re-enables the button and shows no alert.  The renders that
    follow ask for the profile and for the questions with this new token in
    the bearer header; when the profile is refused, the questions are asked
    for once more, without a token. *)
Theorem login_opens_the_session (v : Variant) (w : World)
    (response : value) (t : jsstring) :
  truthy (token (app w)) = false ->
  outcome_of w (auth_request (app w)) = inr response ->
  member response (js "access_token") = Some (VStr t) ->
  truthy (VStr t) = true ->
  let w1 := after (handleAuth v) w in
  let c1 := app w1 in
  trace (handleAuth v) w = [PreventDefault; Fetch (auth_request (app w))]
  /\ token c1 = VStr t
  /\ localStorage_token w1 = Some t
  /\ loginData c1 = empty_loginData
  /\ registerData c1 = empty_registerData v
  /\ loading c1 = false
  /\ request_headers (me_request c1)
     = [(js "Content-Type", js "application/json");
        (js "Authorization", js "Bearer " ++ t)]
  /\ requests (events (on (handleAuth v) w))
     = auth_request (app w) :: me_request c1 :: list_request c1
       :: match outcome_of w1 (me_request c1) with
          | inr _ => []
          | inl _ => [list_request (with_token VNull c1)]
          end.
Proof.
  intros Hanonymous Hreply Htoken Htruthy w1 c1.
  assert (Htext : t <> []) by (intros ->; discriminate).
  assert (Hrun : dispatch (handleAuth v) w
    = {| result := inr tt;
         world :=
           {| app := with_loading false
                       (with_registerData (empty_registerData v)
                          (with_loginData empty_loginData
                             (with_token (VStr t)
                                (with_loading true (app w)))));
              localStorage_token := Some t;
              backend := backend (served w (auth_request (app w))) |};
         events := [PreventDefault; Fetch (auth_request (app w))] |}).
  { unfold handleAuth. monad_unfold. call_api.
    cbv [outcome_of auth_request] in Hreply. rewrite Hreply. record_simpl.
    rewrite Htoken. reflexivity. }
  assert (Hw1 : w1 = world (dispatch (handleAuth v) w)) by reflexivity.
  assert (Htok : token c1 = VStr t) by (subst c1; now rewrite Hw1, Hrun).
  split; [unfold trace; now rewrite Hrun|].
  split; [exact Htok|].
  split; [now rewrite Hw1, Hrun|].
  split; [subst c1; now rewrite Hw1, Hrun|].
  split; [subst c1; now rewrite Hw1, Hrun|].
  split; [subst c1; now rewrite Hw1, Hrun|].
  split.
  { unfold me_request, GET, config_of, config_headers.
    cbn [request_headers headers no_options]. now rewrite Htok, Htruthy. }
  unfold on. rewrite bind_run, handleAuth_never_throws. record_simpl.
  rewrite requests_app. fold w1.
  replace (requests (events (dispatch (handleAuth v) w)))
    with [auth_request (app w)] by now rewrite Hrun.
  cbn [List.app]. f_equal.
  rewrite rerender_requests.
  change (world (dispatch (handleAuth v) w)) with w1. fold c1. rewrite Htok.
  rewrite (falsy_is_not_text _ _ Hanonymous Htext). cbv zeta.
  rewrite useEffect_token_requests, useEffect_token_token.
  fold c1. rewrite Htok, Htruthy. cbn [List.app]. do 2 f_equal.
  destruct (outcome_of w1 (me_request c1)) as [e|userData] eqn:Hme.
  - cbn [Object_is]. rewrite useEffect_token_requests, useEffect_token_token.
    fold c1. rewrite Htok, Htruthy, Hme. cbn [truthy]. f_equal.
    apply config_of_token. rewrite useEffect_token_token.
    fold c1. now rewrite Htok, Htruthy, Hme.
  - cbn [Object_is]. now rewrite jsstring_eqb_refl.
Qed.

(** X7.  A reply to the authentication call that is an object without
    [access_token] is not treated as a failure: no alert is shown, the
    token cell holds [undefined] so that the authentication screen stays,
    and the text ["undefined"] is stored, with which the next start of the
    page takes a session for open. *)
Theorem login_without_access_token (v : Variant) (w : World)
    (props : list (jsstring * value)) :
  truthy (token (app w)) = false ->
  outcome_of w (auth_request (app w)) = inr (VObj props) ->
  lookup (js "access_token") props = VUndefined ->
  let w1 := after (handleAuth v) w in
  trace (handleAuth v) w = [PreventDefault; Fetch (auth_request (app w))]
  /\ token (app w1) = VUndefined
  /\ render (app w1) = AuthScreen (authMode (app w))
  /\ localStorage_token w1 = Some (js "undefined")
  /\ render (initialState v (localStorage_token w1))
     = MainScreen (QuestionList (VArr [])) None.
Proof.
  intros Hanonymous Hreply Hmissing w1.
  assert (Hrun : dispatch (handleAuth v) w
    = {| result := inr tt;
         world :=
           {| app := with_loading false
                       (with_registerData (empty_registerData v)
                          (with_loginData empty_loginData
                             (with_token VUndefined
                                (with_loading true (app w)))));
              localStorage_token := Some (js "undefined");
              backend := backend (served w (auth_request (app w))) |};
         events := [PreventDefault; Fetch (auth_request (app w))] |}).
  { unfold handleAuth. monad_unfold. call_api.
    cbv [outcome_of auth_request] in Hreply. rewrite Hreply. record_simpl.
    cbn [member]. rewrite Hmissing. reflexivity. }
  subst w1. unfold trace, after. rewrite Hrun. record_simpl.
  repeat split.
Qed.

(* ================================================================== *)
(** ** Submitting the forms *)

(** X8.  A question that the backend accepts empties the form and
    re-fetches the list; one that it refuses is reported by an alert and
    leaves the form as typed and the list as it was.  Either way the
    button is enabled again. *)
Theorem handleCreateQuestion_outcomes (v : Variant) (w : World)
    (field : jsstring) :
  truthy (token (app w)) = true ->
  lookup (js "tags") (questionData (app w)) = VStr field ->
  let c := app w in
  let sent := create_question_request v c (tags_of field) in
  let w' := after (handleCreateQuestion v) w in
  loading (app w') = false
  /\ localStorage_token w' = localStorage_token w
  /\ match outcome_of w sent with
     | inr _ =>
         questionData (app w') = empty_questionData v
         /\ questions (app w')
            = questions (store_questions
                           (outcome_of (served w sent) (list_request c)) c)
         /\ forall m, ~ In (Alert m) (trace (handleCreateQuestion v) w)
     | inl e =>
         trace (handleCreateQuestion v) w
           = [PreventDefault; Fetch sent; Alert (message e)]
         /\ questionData (app w') = questionData c
         /\ questions (app w') = questions c
     end.
Proof.
  intros Htoken Hfield c sent w'.
  assert (Hrun : dispatch (handleCreateQuestion v) w
    = match outcome_of w sent with
      | inr _ =>
          {| result := inr tt;
             world :=
               {| app := with_loading false
                           (store_questions
                              (outcome_of (served w sent) (list_request c))
                              (with_questionData (empty_questionData v)
                                 (with_loading true c)));
                  localStorage_token := localStorage_token w;
                  backend := backend (served (served w sent)
                                        (list_request c)) |};
             events :=
               [PreventDefault; Fetch sent; Fetch (list_request c)]
               ++ match outcome_of (served w sent) (list_request c) with
                  | inl e =>
                      [ConsoleError (js "Failed to fetch questions:") e]
                  | inr _ => []
                  end |}
      | inl e =>
          {| result := inr tt;
             world :=
               {| app := with_loading false (with_loading true c);
                  localStorage_token := localStorage_token w;
                  backend := backend (served w sent) |};
             events := [PreventDefault; Fetch sent; Alert (message e)] |}
      end).
  { subst sent c. unfold handleCreateQuestion, String_split. monad_unfold.
    rewrite Htoken, Hfield. cbn [negb]. call_api.
    fold (tags_of field).
    fold (create_question_request v (app w) (tags_of field)).
    unfold outcome_of at 1.
    destruct (api_result _) as [e|created]; record_simpl; [reflexivity|].
    rewrite fetchQuestions_run. record_simpl. now rewrite app_nil_r. }
  subst w'. unfold trace, after. rewrite Hrun.
  destruct (outcome_of w sent) as [e|created]; record_simpl.
  - repeat split.
  - split; [reflexivity|]. split; [reflexivity|]. split; [|split].
    + destruct (outcome_of _ _); reflexivity.
    + destruct (outcome_of _ _); reflexivity.
    + intros m Hin. cbn in Hin.
      destruct Hin as [H|[H|[H|Hin]]]; try discriminate.
      destruct (outcome_of _ _); cbn in Hin; [destruct Hin as [H|[]]|];
        [discriminate|contradiction].
Qed.

(** X9.  An answer that the backend refuses is reported by an alert: the
    fact-check is not asked for, nothing is re-fetched, and the text of the
    answer stays in its box; only [loading] is written. *)
Theorem handleCreateAnswer_refused (v : Variant) (w : World)
    (id : value) (e : exn) :
  truthy (token (app w)) = true ->
  truthy (currentQuestion (app w)) = true ->
  member (currentQuestion (app w)) (js "id") = Some id ->
  outcome_of w (create_answer_request (app w) id) = inl e ->
  let w' := after (handleCreateAnswer v) w in
  trace (handleCreateAnswer v) w
    = [PreventDefault; Fetch (create_answer_request (app w) id);
       Alert (message e)]
  /\ app w' = with_loading false (with_loading true (app w))
  /\ answerContent (app w') = answerContent (app w)
  /\ localStorage_token w' = localStorage_token w.
Proof.
  intros Htoken Hopen Hid Hpost w'.
  assert (Hrun : dispatch (handleCreateAnswer v) w
    = {| result := inr tt;
         world :=
           {| app := with_loading false (with_loading true (app w));
              localStorage_token := localStorage_token w;
              backend := backend
                           (served w (create_answer_request (app w) id)) |};
         events := [PreventDefault;
                    Fetch (create_answer_request (app w) id);
                    Alert (message e)] |}).
  { unfold handleCreateAnswer. monad_unfold.
    rewrite Htoken, Hopen, Hid. cbn [negb orb]. call_api.
    expose Hpost. rewrite Hpost. reflexivity. }
  subst w'. unfold trace, after. rewrite Hrun. repeat split.
Qed.

(** X10.  An answer that the backend accepts is followed, in
    ImmigrantConnect, by one fact-check request that carries the [id] of
    the new answer, the title of the open question and the text of the
    answer, when the reply has an [id] to read, that is, when it is not
    [null]; for a reply [null] reading [answer.id] fails, the failure is
    logged as a failed fact-check and no fact-check is sent.  QAPlatform
    asks for no fact-check.  In both components and for every reply the
    question and its answers are then re-fetched, the answer box is
    emptied, [loading] ends [false] and nothing is alerted. *)
Theorem handleCreateAnswer_accepted (v : Variant) (w : World)
    (id title answer : value) :
  truthy (token (app w)) = true ->
  truthy (currentQuestion (app w)) = true ->
  member (currentQuestion (app w)) (js "id") = Some id ->
  member (currentQuestion (app w)) (js "title") = Some title ->
  outcome_of w (create_answer_request (app w) id) = inr answer ->
  let c := app w in
  let w' := after (handleCreateAnswer v) w in
  requests (trace (handleCreateAnswer v) w)
    = create_answer_request c id ::
      match v, member answer (js "id") with
      | ImmigrantConnect, Some answer_id =>
          [fact_check_request c answer_id title]
      | ImmigrantConnect, None => []
      | QAPlatform, _ => []
      end
      ++ [question_request c id; answers_request c id]
  /\ (forall answer_id,
        member answer (js "id") = Some answer_id ->
        request_body (fact_check_request c answer_id title)
        = Some (JSON_stringify
                  (VObj [(js "answer_id", answer_id);
                         (js "question_title", title);
                         (js "answer_content", VStr (answerContent c))])))
  /\ (v = ImmigrantConnect -> member answer (js "id") = None ->
      In (ConsoleError (js "Fact-check failed:")
            (Native (TypeError_property answer (js "id"))))
         (trace (handleCreateAnswer v) w))
  /\ answerContent (app w') = []
  /\ loading (app w') = false
  /\ forall m, ~ In (Alert m) (trace (handleCreateAnswer v) w).
Proof.
  intros Htoken Hopen Hid Htitle Hpost c w'.
  set (w1 := served w (create_answer_request c id)).
  assert (Hrun : exists (checked : list event) (w2 : World),
    dispatch (handleCreateAnswer v) w
    = {| result := inr tt;
         world :=
           {| app := with_loading false
                       (store_question
                          (outcome_of w2 (question_request c id))
                          (outcome_of (served w2 (question_request c id))
                             (answers_request c id))
                          (with_answerContent [] (with_loading true c)));
              localStorage_token := localStorage_token w;
              backend := backend
                           (served (served w2 (question_request c id))
                              (answers_request c id)) |};
         events :=
           [PreventDefault; Fetch (create_answer_request c id)]
           ++ checked
           ++ [Fetch (question_request c id); Fetch (answers_request c id)]
           ++ match first_error
                      (outcome_of w2 (question_request c id))
                      (outcome_of (served w2 (question_request c id))
                         (answers_request c id)) with
              | Some e =>
                  [ConsoleError (js "Failed to fetch question details:") e]
              | None => []
              end |}
    /\ requests checked
       = match v, member answer (js "id") with
         | ImmigrantConnect, Some answer_id =>
             [fact_check_request c answer_id title]
         | ImmigrantConnect, None => []
         | QAPlatform, _ => []
         end
    /\ (forall m, ~ In (Alert m) checked)
    /\ (v = ImmigrantConnect -> member answer (js "id") = None ->
        In (ConsoleError (js "Fact-check failed:")
              (Native (TypeError_property answer (js "id")))) checked)).
  { destruct v; [destruct (member answer (js "id")) as [answer_id|] eqn:Haid|].
    - exists (Fetch (fact_check_request c answer_id title)
              :: match outcome_of w1
                         (fact_check_request c answer_id title) with
                 | inl e => [ConsoleError (js "Fact-check failed:") e]
                 | inr _ => []
                 end),
             (served w1 (fact_check_request c answer_id title)).
      split; [|split; [|split]].
      + subst w1 c. unfold handleCreateAnswer, factCheck. monad_unfold.
        rewrite Htoken, Hopen, Hid. cbn [negb orb]. call_api.
        expose Hpost. rewrite Hpost. record_simpl.
        rewrite Haid, Htitle. call_api.
        cbv [outcome_of served with_backend fact_check_request
             create_answer_request].
        record_simpl.
        destruct (api_result (snd (serve (fst (serve (backend w) _)) _)));
          record_simpl; rewrite fetchQuestion_run; record_simpl;
          rewrite app_nil_r; reflexivity.
      + now rewrite requests_fetch, requests_logged.
      + intros m [H|Hin]; [discriminate|].
        destruct (outcome_of w1 _); [|contradiction].
        destruct Hin as [H|[]]; discriminate.
      + intros _ Hnone. discriminate.
    - exists [ConsoleError (js "Fact-check failed:")
                (Native (TypeError_property answer (js "id")))], w1.
      split; [|split; [|split]].
      + subst w1 c. unfold handleCreateAnswer, factCheck. monad_unfold.
        rewrite Htoken, Hopen, Hid. cbn [negb orb]. call_api.
        expose Hpost. rewrite Hpost. record_simpl.
        rewrite Haid. record_simpl. rewrite fetchQuestion_run. record_simpl.
        rewrite app_nil_r. reflexivity.
      + reflexivity.
      + intros m [H|[]]. discriminate.
      + intros _ _. now left.
    - exists [], w1. split; [|split; [|split]].
      + subst w1 c. unfold handleCreateAnswer. monad_unfold.
        rewrite Htoken, Hopen, Hid. cbn [negb orb]. call_api.
        expose Hpost. rewrite Hpost. record_simpl.
        rewrite fetchQuestion_run. record_simpl.
        rewrite app_nil_r. reflexivity.
      + reflexivity.
      + intros m [].
      + discriminate. }
  destruct Hrun as (checked & w2 & Hrun & Hchecked & Hquiet & Hlogged).
  unfold w', trace, after. rewrite Hrun. record_simpl.
  split; [|split; [reflexivity|split; [|split; [|split]]]].
  - change (requests (PreventDefault :: ?l)) with (requests l).
    rewrite requests_fetch, requests_app, !requests_fetch,
      requests_logged_first, Hchecked.
    reflexivity.
  - intros Hv Hnone. right. right. apply in_or_app. left.
    now apply Hlogged.
  - destruct (outcome_of w2 _), (outcome_of (served w2 _) _); reflexivity.
  - reflexivity.
  - intros m Hin.
    destruct Hin as [H|[H|Hin]]; try discriminate.
    apply in_app_or in Hin. destruct Hin as [Hin|Hin].
    + now apply (Hquiet m).
    + destruct Hin as [H|[H|Hin]]; try discriminate.
      destruct (first_error _ _); [|contradiction].
      destruct Hin as [H|[]]; discriminate.
Qed.
(* ================================================================== *)
(** ** Voting before the profile has arrived *)

(** X11.  While [user] is still [null] (or [undefined]), a vote sends
    nothing: reading [user.id] fails inside the [try], the failure is
    logged, and no cell changes. *)
Theorem handleVote_without_profile (w : World)
    (targetId targetType value : value) :
  truthy (token (app w)) = true ->
  member (user (app w)) (js "id") = None ->
  let h := fun c => handleVote c targetId targetType value in
  trace h w
    = [ConsoleError (js "Vote failed:")
         (Native (TypeError_property (user (app w)) (js "id")))]
  /\ after h w = w.
Proof.
  intros Htoken Huser. cbv zeta. unfold handleVote. monad_unfold.
  rewrite Htoken, Huser. cbn. split; [reflexivity|now destruct w].
Qed.

(* ================================================================== *)
(** ** A list that cannot be refreshed *)

(** X12.  When the list cannot be fetched, the list shown before stays:
    a search that fails, with a blank query or not, changes no cell and
    tells the user nothing but through the console; the way back from a
    question closes the question and shows the list it had. *)
Theorem failed_refresh_keeps_the_list (w1 w2 w3 : World)
    (encoded : jsstring) (e1 e2 e3 : exn) :
  blank (searchQuery (app w1)) = true ->
  outcome_of w1 (list_request (app w1)) = inl e1 ->
  blank (searchQuery (app w2)) = false ->
  encodeURIComponent (searchQuery (app w2)) = Some encoded ->
  outcome_of w2 (search_request (app w2) encoded) = inl e2 ->
  outcome_of w3 (list_request (app w3)) = inl e3 ->
  (app (after handleSearch w1) = app w1
   /\ trace handleSearch w1
      = [Fetch (list_request (app w1));
         ConsoleError (js "Failed to fetch questions:") e1])
  /\ (app (after handleSearch w2) = app w2
      /\ trace handleSearch w2
         = [Fetch (search_request (app w2) encoded);
            ConsoleError (js "Search failed:") e2])
  /\ (app (after backToQuestions w3) = with_currentQuestion VNull (app w3)
      /\ forall page chat,
           render (app (after backToQuestions w3)) = MainScreen page chat ->
           page = QuestionList (questions (app w3))).
Proof.
  intros Hblank Hlist Hquery Hencoded Hsearch Hback.
  split; [|split].
  - unfold trace, after, dispatch, handleSearch.
    rewrite truthy_trim, Hblank. cbn [negb].
    rewrite fetchQuestions_run, Hlist. split; reflexivity.
  - unfold trace, after, handleSearch. monad_unfold.
    rewrite truthy_trim, Hquery, Hencoded. cbn [negb]. call_api.
    expose Hsearch. rewrite Hsearch. split; reflexivity.
  - assert (Happ : app (after backToQuestions w3)
                   = with_currentQuestion VNull (app w3)).
    { unfold after, backToQuestions. monad_unfold.
      rewrite fetchQuestions_run. record_simpl.
      unfold outcome_of in *. record_simpl.
      unfold list_request, GET in *. now rewrite Hback. }
    split; [exact Happ|].
    intros page chat Hrender. rewrite Happ in Hrender.
    unfold render in Hrender. cbn [token currentQuestion with_currentQuestion
      truthy negb] in Hrender.
    destruct (truthy (token (app w3))); cbn [negb] in Hrender;
      [|discriminate].
    now inversion Hrender.
Qed.

(* ================================================================== *)
(** ** Tags, once more *)

Lemma split_without_separator (sep : N) (p : jsstring) :
  ~ In sep p -> split sep p = [p].
Proof.
  induction p as [|c p IH]; intros Hp; [reflexivity|].
  cbn [split]. destruct (N.eqb_spec c sep) as [->|Hne].
  - exfalso. apply Hp. now left.
  - rewrite IH; [reflexivity|]. intros Hin. apply Hp. now right.
Qed.

Lemma split_at_separator (sep : N) (p rest : jsstring) :
  ~ In sep p -> split sep (p ++ sep :: rest) = p :: split sep rest.
Proof.
  induction p as [|c p IH]; intros Hp; cbn [List.app split].
  - now rewrite N.eqb_refl.
  - destruct (N.eqb_spec c sep) as [->|Hne].
    + exfalso. apply Hp. now left.
    + rewrite IH; [reflexivity|]. intros Hin. apply Hp. now right.
Qed.

Lemma split_join (sep : N) (pieces : list jsstring) :
  pieces <> [] -> Forall (fun p => ~ In sep p) pieces ->
  split sep (join [sep] pieces) = pieces.
Proof.
  induction pieces as [|p ps IH]; intros Hnil Hall; [contradiction|].
  inversion Hall as [|? ? Hp Hps]; subst.
  destruct ps as [|q qs].
  - cbn [join]. now apply split_without_separator.
  - change (join [sep] (p :: q :: qs)) with (p ++ sep :: join [sep] (q :: qs)).
    rewrite split_at_separator by assumption.
    rewrite IH; [reflexivity|discriminate|assumption].
Qed.

Lemma trimStart_fixed (t : jsstring) :
  (forall c t', t = c :: t' -> is_white_space c = false) -> trimStart t = t.
Proof.
  destruct t as [|c t']; intros H; [reflexivity|].
  cbn [trimStart]. now rewrite (H c t' eq_refl).
Qed.

Lemma trim_fixed (t : jsstring) : no_space_at_ends t -> trim t = t.
Proof.
  intros [Hstart Hend]. unfold trim. rewrite (trimStart_fixed t Hstart).
  unfold trimEnd. rewrite trimStart_fixed; [apply rev_involutive|].
  intros c t' Hrev. apply (Hend (rev t') c).
  rewrite <- (rev_involutive t), Hrev. reflexivity.
Qed.

Lemma trim_sublist (p : jsstring) (c : N) : In c (trim p) -> In c p.
Proof.
  intros Hin. destruct (trim_Trimmed p) as (l & r & Hp & _).
  rewrite Hp. apply in_or_app. right. apply in_or_app. now left.
Qed.

Lemma tags_of_clean (field : jsstring) : Forall clean_tag (tags_of field).
Proof.
  unfold tags_of. apply Forall_forall. intros t Ht.
  apply filter_In in Ht. destruct Ht as [Ht Hnonempty].
  apply in_map_iff in Ht. destruct Ht as (p & <- & Hp).
  split; [|split].
  - intros Hnil. rewrite Hnil in Hnonempty. discriminate.
  - intros Hcomma. apply trim_sublist in Hcomma.
    pose proof (split_no_separator comma field) as Hall.
    rewrite Forall_forall in Hall. exact (Hall p Hp Hcomma).
  - destruct (trim_Trimmed p) as (l & r & _ & _ & _ & Hends). exact Hends.
Qed.

Lemma clean_tags_pass (ts : list jsstring) :
  Forall clean_tag ts ->
  filter (fun tag => truthy (VStr tag)) (List.map (fun tag => trim tag) ts)
  = ts.
Proof.
  induction ts as [|u us IH]; intros Hclean; [reflexivity|].
  inversion Hclean as [|? ? (Hnonempty & _ & Hends) Hrest]; subst.
  cbn [List.map filter]. rewrite (trim_fixed u Hends).
  destruct u; [contradiction|]. cbn [truthy]. f_equal. now apply IH.
Qed.

(** X13.  Every tag that is sent is clean: not empty, without comma,
    without white space at either end.  Clean tags written one after the
    other with commas between them are read back as they are, so that
    reading the tags field is stable: the tags read, written with commas
    and read again, are the same tags. *)
Theorem tags_round_trip (field : jsstring) (tags : list jsstring) :
  Forall clean_tag (tags_of field)
  /\ (Forall clean_tag tags -> tags_of (join [comma] tags) = tags)
  /\ tags_of (join [comma] (tags_of field)) = tags_of field.
Proof.
  assert (Hback : forall ts, Forall clean_tag ts ->
                             tags_of (join [comma] ts) = ts).
  { intros ts Hclean. destruct ts as [|t ts']; [reflexivity|].
    unfold tags_of. rewrite split_join.
    - now apply clean_tags_pass.
    - discriminate.
    - eapply Forall_impl; [|exact Hclean]. intros u (_ & Hcomma & _).
      exact Hcomma. }
  split; [apply tags_of_clean|]. split; [apply Hback|].
  apply Hback, tags_of_clean.
Qed.

(** X16.  When the "Post Question" button is enabled, no tag of the
    request it sends is empty: the tags typed are clean, and the category
    ImmigrantConnect adds has been chosen. *)
Theorem enabled_button_sends_no_empty_tag (v : Variant) (c : AppState)
    (field : jsstring) :
  post_question_disabled v c = false ->
  exists items,
    member (question_body v (questionData c) (tags_of field)) (js "tags")
      = Some (VArr items)
    /\ Forall (fun t => truthy t = true) items.
Proof.
  intros Henabled.
  assert (Htags : Forall (fun t => truthy t = true)
                    (List.map VStr (tags_of field))).
  { apply Forall_forall. intros t Ht. apply in_map_iff in Ht.
    destruct Ht as (u & <- & Hu).
    pose proof (tags_of_clean field) as Hclean.
    rewrite Forall_forall in Hclean. destruct (Hclean u Hu) as (Hne & _).
    destruct u; [contradiction|reflexivity]. }
  destruct v; cbn [question_body post_question_disabled] in *.
  - eexists. split; [reflexivity|]. apply Forall_app. split; [exact Htags|].
    constructor; [|constructor].
    apply orb_false_iff in Henabled. destruct Henabled as [_ Hcategory].
    now apply negb_false_iff in Hcategory.
  - eexists. split; [reflexivity|]. exact Htags.
Qed.

(* ================================================================== *)
(** ** The search URL *)

Lemma delimiter_cases (c : N) :
  is_url_delimiter c = true -> In c (js " #&+,/:;=?@").
Proof.
  unfold is_url_delimiter. intros H. apply existsb_exists in H.
  destruct H as (d & Hd & Heq). apply N.eqb_eq in Heq. now subst.
Qed.

Lemma unescaped_is_no_delimiter (c : N) :
  is_uri_unescaped c = true -> is_url_delimiter c = false.
Proof.
  intros Hc. destruct (is_url_delimiter c) eqn:Hd; [|reflexivity].
  apply delimiter_cases in Hd. cbv in Hd.
  repeat (destruct Hd as [<-|Hd]; [vm_compute in Hc; discriminate|]).
  contradiction.
Qed.

Lemma digit_or_letter_is_no_delimiter (c : N) :
  (0x30 <= c <= 0x39) \/ 0x41 <= c -> is_url_delimiter c = false.
Proof.
  intros Hc. destruct (is_url_delimiter c) eqn:Hd; [|reflexivity].
  apply delimiter_cases in Hd. cbv in Hd.
  repeat (destruct Hd as [<-|Hd]; [lia|]). contradiction.
Qed.

Lemma hex_digit_is_no_delimiter (d : N) :
  is_url_delimiter (hex_digit d) = false.
Proof.
  apply digit_or_letter_is_no_delimiter. unfold hex_digit.
  destruct (N.ltb_spec d 10); lia.
Qed.

Lemma escape_has_no_delimiter (cp : N) :
  Forall (fun c => is_url_delimiter c = false) (escape cp).
Proof.
  unfold escape.
  assert (Hpercent : forall octet,
             Forall (fun c => is_url_delimiter c = false) (percent octet)).
  { intros octet. unfold percent.
    repeat constructor; apply hex_digit_is_no_delimiter. }
  induction (utf8 cp) as [|o os IH]; cbn [List.map List.concat];
    [constructor|].
  apply Forall_app. split; [apply Hpercent|exact IH].
Qed.

Lemma encodeURIComponent_has_no_delimiter (s encoded : jsstring) :
  encodeURIComponent s = Some encoded ->
  Forall (fun c => is_url_delimiter c = false) encoded.
Proof.
  remember (List.length s) as n eqn:Hn.
  assert (Hle : (List.length s <= n)%nat) by (subst; constructor).
  clear Hn. revert s encoded Hle.
  induction n as [|n IH]; intros s encoded Hle Henc.
  - destruct s; [|inversion Hle]. inversion Henc. constructor.
  - destruct s as [|c s']; [inversion Henc; constructor|].
    cbn [encodeURIComponent] in Henc. cbn [List.length] in Hle.
    destruct (is_uri_unescaped c) eqn:Hc.
    { destruct (encodeURIComponent s') as [rest|] eqn:Hrest; [|discriminate].
      inversion Henc. constructor; [now apply unescaped_is_no_delimiter|].
      apply (IH s'); [lia|exact Hrest]. }
    destruct (is_trail_surrogate c); [discriminate|].
    destruct (is_lead_surrogate c).
    { destruct s' as [|d s'']; [discriminate|].
      destruct (is_trail_surrogate d); [|discriminate].
      destruct (encodeURIComponent s'') as [rest|] eqn:Hrest; [|discriminate].
      inversion Henc. apply Forall_app. split;
        [apply escape_has_no_delimiter|].
      apply (IH s''); [cbn [List.length] in Hle; lia|exact Hrest]. }
    destruct (encodeURIComponent s') as [rest|] eqn:Hrest; [|discriminate].
    inversion Henc. apply Forall_app. split;
      [apply escape_has_no_delimiter|].
    apply (IH s'); [lia|exact Hrest].
Qed.

(** X14.  Whatever is typed in the search box, the search request has the
    one parameter [q]: after ["/api/search?q="] the URL holds none of the
    characters that delimit the parts of a URL or of its query, so that
    the query can add no parameter and no fragment. *)
Theorem search_query_stays_in_its_parameter (w : World)
    (encoded : jsstring) :
  blank (searchQuery (app w)) = false ->
  encodeURIComponent (searchQuery (app w)) = Some encoded ->
  exists rq,
    requests (trace handleSearch w) = [rq]
    /\ url rq = API_BASE_URL ++ js "/api/search?q=" ++ encoded
    /\ Forall (fun c => is_url_delimiter c = false) encoded.
Proof.
  intros Hquery Hencoded. exists (search_request (app w) encoded).
  split; [|split; [reflexivity|]].
  - unfold trace, handleSearch. monad_unfold.
    rewrite truthy_trim, Hquery, Hencoded. cbn [negb]. call_api.
    destruct (api_result _); reflexivity.
  - now apply encodeURIComponent_has_no_delimiter with (s := searchQuery (app w)).
Qed.

(* ================================================================== *)
(** ** Typing in a form *)

Lemma lookup_app_without (k : jsstring) (a b : obj) :
  has_key k a = false -> lookup k (a ++ b) = lookup k b.
Proof.
  induction a as [|[k' x] a IH]; [reflexivity|].
  unfold has_key. cbn [existsb fst List.app lookup].
  intros H. apply orb_false_iff in H. destruct H as [Hk Ha].
  rewrite Hk. now apply IH.
Qed.

Lemma jsstring_eqb_sym (a b : jsstring) : jsstring_eqb a b = jsstring_eqb b a.
Proof.
  destruct (jsstring_eqb a b) eqn:Hab.
  - apply jsstring_eqb_eq in Hab. subst. symmetry. apply jsstring_eqb_refl.
  - destruct (jsstring_eqb b a) eqn:Hba; [|reflexivity].
    apply jsstring_eqb_eq in Hba. subst.
    now rewrite jsstring_eqb_refl in Hab.
Qed.

(** Writing one property over an object. *)
Lemma spread_one (o : obj) (k : jsstring) (x : value) :
  spread o [(k, x)]
  = List.map (fun p => if jsstring_eqb (fst p) k then (fst p, x) else p) o
    ++ if has_key k o then [] else [(k, x)].
Proof.
  unfold spread. f_equal.
  - apply map_ext. intros [k' y]. cbn [find fst snd].
    now destruct (jsstring_eqb k' k).
  - cbn [filter fst]. now destruct (has_key k o).
Qed.

Lemma lookup_spread_same (o : obj) (k : jsstring) (x : value) :
  lookup k (spread o [(k, x)]) = x.
Proof.
  rewrite spread_one. unfold has_key.
  induction o as [|[k' y] o IH]; cbn [List.map existsb fst List.app lookup].
  - now rewrite jsstring_eqb_refl.
  - rewrite (jsstring_eqb_sym k' k).
    destruct (jsstring_eqb k k') eqn:Hk; cbn [fst lookup orb].
    + now rewrite Hk.
    + rewrite Hk. exact IH.
Qed.

Lemma lookup_app (k : jsstring) (a b : obj) :
  lookup k (a ++ b) = if has_key k a then lookup k a else lookup k b.
Proof.
  unfold has_key.
  induction a as [|[k' y] a IH]; cbn [List.app lookup existsb fst];
    [reflexivity|].
  destruct (jsstring_eqb k k'); [reflexivity|exact IH].
Qed.

Lemma lookup_without_key (k : jsstring) (o : obj) :
  has_key k o = false -> lookup k o = VUndefined.
Proof.
  unfold has_key.
  induction o as [|[k' y] o IH]; cbn [lookup existsb fst]; [reflexivity|].
  destruct (jsstring_eqb k k'); [discriminate|exact IH].
Qed.

Lemma has_key_rewritten (o : obj) (k k' : jsstring) (x : value) :
  has_key k'
    (List.map (fun p => if jsstring_eqb (fst p) k then (fst p, x) else p) o)
  = has_key k' o.
Proof.
  unfold has_key.
  induction o as [|[k0 y] o IH]; cbn [List.map existsb fst]; [reflexivity|].
  rewrite IH. now destruct (jsstring_eqb k0 k).
Qed.

Lemma lookup_rewritten (o : obj) (k k' : jsstring) (x : value) :
  jsstring_eqb k' k = false ->
  lookup k'
    (List.map (fun p => if jsstring_eqb (fst p) k then (fst p, x) else p) o)
  = lookup k' o.
Proof.
  intros Hne.
  induction o as [|[k0 y] o IH]; cbn [List.map lookup fst]; [reflexivity|].
  destruct (jsstring_eqb k0 k) eqn:Hk0; cbn [lookup].
  - apply jsstring_eqb_eq in Hk0. subst k0. now rewrite Hne.
  - now rewrite IH.
Qed.

Lemma lookup_spread_other (o : obj) (k k' : jsstring) (x : value) :
  jsstring_eqb k' k = false ->
  lookup k' (spread o [(k, x)]) = lookup k' o.
Proof.
  intros Hne.
  rewrite spread_one, lookup_app, has_key_rewritten,
    (lookup_rewritten _ _ _ _ Hne).
  destruct (has_key k' o) eqn:Hk; [reflexivity|].
  rewrite (lookup_without_key _ _ Hk).
  destruct (has_key k o); cbn [lookup]; [reflexivity|now rewrite Hne].
Qed.

Lemma keys_spread (o : obj) (k : jsstring) (x : value) :
  has_key k o = true ->
  List.map fst (spread o [(k, x)]) = List.map fst o.
Proof.
  intros Hkey. rewrite spread_one, Hkey, app_nil_r, map_map.
  apply map_ext. intros [k' y]. cbn [fst]. now destruct (jsstring_eqb k' k).
Qed.

Lemma has_key_app {A} (k : jsstring) (a b : list (jsstring * A)) :
  has_key k (a ++ b) = has_key k a || has_key k b.
Proof. unfold has_key. apply existsb_app. Qed.

Lemma has_key_spread (o : obj) (k k' : jsstring) (x : value) :
  has_key k' (spread o [(k, x)]) = has_key k' o || jsstring_eqb k' k.
Proof.
  rewrite spread_one, has_key_app, has_key_rewritten.
  destruct (has_key k o) eqn:Hk.
  - cbn. rewrite orb_false_r.
    destruct (jsstring_eqb k' k) eqn:Hkk; [|now rewrite orb_false_r].
    apply jsstring_eqb_eq in Hkk. subst. now rewrite Hk.
  - unfold has_key at 2. cbn [existsb fst]. now rewrite orb_false_r.
Qed.

(** X15.  What is typed is what is sent.  Typing in one field of the login
    form sets that field and no other, and adds no field to a form that has
    it; with the login tab selected, the request of the authentication
    form then carries the user name and the password typed last. *)
Theorem typed_credentials_are_sent (w : World) (username password : jsstring) :
  jsstring_eqb (authMode (app w)) (js "login") = true ->
  has_key (js "username") (loginData (app w)) = true ->
  has_key (js "password") (loginData (app w)) = true ->
  let w1 := after (onChange_loginData "username" username) w in
  let w2 := after (onChange_loginData "password" password) w1 in
  exists data,
    request_body (auth_request (app w2)) = Some (JSON_stringify (VObj data))
    /\ url (auth_request (app w2)) = API_BASE_URL ++ js "/api/login"
    /\ lookup (js "username") data = VStr username
    /\ lookup (js "password") data = VStr password
    /\ List.map fst data = List.map fst (loginData (app w))
    /\ (forall k, jsstring_eqb k (js "username") = false ->
                  jsstring_eqb k (js "password") = false ->
                  lookup k data = lookup k (loginData (app w))).
Proof.
  intros Hmode Huser Hpass w1 w2.
  assert (Hdata : loginData (app w2)
                  = spread (spread (loginData (app w))
                              [(js "username", VStr username)])
                      [(js "password", VStr password)]) by reflexivity.
  assert (Hmode2 : authMode (app w2) = authMode (app w)) by reflexivity.
  exists (loginData (app w2)).
  split; [unfold auth_request; cbv zeta; now rewrite Hmode2, Hmode|].
  split; [unfold auth_request; cbv zeta; now rewrite Hmode2, Hmode|].
  rewrite Hdata. split; [|split; [apply lookup_spread_same|split]].
  - rewrite lookup_spread_other by reflexivity. apply lookup_spread_same.
  - rewrite keys_spread, keys_spread; [reflexivity|assumption|].
    now rewrite has_key_spread, Hpass.
  - intros k Hk1 Hk2.
    now rewrite lookup_spread_other, lookup_spread_other.
Qed.

(* ================================================================== *)
(** ** The first render *)

(** X17.  When the page starts with a stored token that is not empty, the
    effect asks for the profile and then for the questions, both with the
    stored token in the bearer header.  If the profile is refused the
    stored token is removed and the authentication screen is shown; if it
    is returned, it becomes [user] and the token is kept, in the state and
    in the storage.  Without a stored token the one request is for the
    questions, without bearer header, and the authentication screen
    stays. *)
Theorem page_start (v : Variant) (stored : jsstring) (b b0 : Srv) :
  truthy (VStr stored) = true ->
  let w := browser (initialState v (Some stored)) (Some stored) b in
  let w' := world (dispatch useEffect_token w) in
  let w0 := browser (initialState v None) None b0 in
  let w0' := world (dispatch useEffect_token w0) in
  requests (events (dispatch useEffect_token w))
    = [me_request (app w); list_request (app w)]
  /\ request_headers (me_request (app w))
     = [(js "Content-Type", js "application/json");
        (js "Authorization", js "Bearer " ++ stored)]
  /\ request_headers (list_request (app w))
     = request_headers (me_request (app w))
  /\ match outcome_of w (me_request (app w)) with
     | inl _ =>
         localStorage_token w' = None
         /\ render (app w') = AuthScreen (js "login")
     | inr userData =>
         user (app w') = userData
         /\ localStorage_token w' = Some stored
         /\ token (app w') = VStr stored
     end
  /\ requests (events (dispatch useEffect_token w0)) = [list_request (app w0)]
  /\ request_headers (list_request (app w0))
     = [(js "Content-Type", js "application/json")]
  /\ render (app w0') = AuthScreen (js "login").
Proof.
  intros Hstored w w' w0 w0'.
  assert (Htok : token (app w) = VStr stored) by reflexivity.
  assert (Hstate : app w = initialState v (Some stored)) by reflexivity.
  split; [now rewrite useEffect_token_requests, Htok, Hstored|].
  assert (Hheaders : request_headers (me_request (app w))
     = [(js "Content-Type", js "application/json");
        (js "Authorization", js "Bearer " ++ stored)]).
  { unfold me_request, GET, config_of, config_headers.
    cbn [request_headers headers no_options]. now rewrite Htok, Hstored. }
  split; [exact Hheaders|]. split; [reflexivity|]. split; [|split; [|split]].
  - subst w'. unfold dispatch, useEffect_token. rewrite Htok, Hstored.
    rewrite bind_run, fetchUser_run. record_simpl.
    rewrite fetchQuestions_run. record_simpl.
    destruct (outcome_of w (me_request (app w))) as [e|userData].
    + split; [reflexivity|]. unfold render.
      match goal with
      | |- context [store_questions ?o ?s] =>
          destruct (store_questions_frame o s) as (Ht & _ & _ & _ & _ & _ & Hm);
            rewrite Ht, Hm
      end. reflexivity.
    + split; [|split; [reflexivity|]].
      * match goal with
        | |- context [store_questions ?o ?s] =>
            destruct (store_questions_frame o s) as (_ & Hu & _); now rewrite Hu
        end.
      * match goal with
        | |- context [store_questions ?o ?s] =>
            destruct (store_questions_frame o s) as (Ht & _); rewrite Ht
        end.
        exact Htok.
  - now rewrite useEffect_token_requests.
  - reflexivity.
  - subst w0'. unfold render.
    destruct (useEffect_token_keeps w0) as (_ & _ & Hm & [Ht|Ht]);
      rewrite Ht, Hm; reflexivity.
Qed.

End App.
Arguments result {Srv A} _.
Arguments world {Srv A} _.
Arguments events {Srv A} _.

(* ================================================================== *)
(** ** The gateway on a [null] payload *)

(** C2.  A response that is not OK and whose body is the JSON text [null]
    lacks a detail, yet [apiRequest] does not throw the error
    ["Request failed"]: reading [detail] off [null] raises a [TypeError]. *)
Theorem apiRequest_null_payload (c : AppState) (path : jsstring)
    (options : Options) (stored : option jsstring) (rest : Script) :
  let w := browser c stored (replies false VNull :: rest) in
  result (apiRequest scripted None c path options w)
    = inl (Native (TypeError_property VNull (js "detail")))
  /\ result (apiRequest scripted None c path options w)
     <> inl (Error (js "Request failed")).
Proof.
  cbv zeta. rewrite apiRequest_run. split; [reflexivity|discriminate].
Qed.

(* ================================================================== *)
(** ** The theorems at work *)

(** Nobody is signed in: a vote and a chat message do nothing.  Ada is
    signed in with no question open: posting an answer does nothing. *)
Lemma guards_return_at_once_witness :
  let w := browser (anonymous QAPlatform) None [] in
  let w' := browser (signed_in QAPlatform) (Some (js "t0k3n")) [] in
  (requests (trace (fun c => handleVote scripted None c (VNum 42)
                                (str "question") (VNum 1)) w) = []
   /\ after (handleChatMessage scripted None QAPlatform) w = w)
  /\ after (handleCreateAnswer scripted None QAPlatform) w' = w'.
Proof.
  cbv zeta.
  pose proof (guards_return_at_once scripted None QAPlatform
                (browser (anonymous QAPlatform) None [])
                (browser (signed_in QAPlatform) (Some (js "t0k3n")) [])
                (VNum 42) (str "question") (VNum 1))
    as H.
  destruct H as (_ & _ & (Hvote & _) & (_ & Hchat) & (_ & Hanswer));
    [reflexivity|reflexivity|].
  split; [split|]; assumption.
Defined.

(** Tags ["a, b"] with the category ["employment"]. *)
Lemma handleCreateQuestion_tags_witness :
  member (question_body ImmigrantConnect
            (questionData (asking ImmigrantConnect)) (tags_of (js "a, b")))
         (js "tags")
    = Some (VArr [str "a"; str "b"; str "employment"])
  /\ member (question_body QAPlatform
               (questionData (asking QAPlatform)) (tags_of (js "a, b")))
            (js "tags")
     = Some (VArr [str "a"; str "b"]).
Proof.
  split.
  - destruct (handleCreateQuestion_tags scripted None ImmigrantConnect
                (browser (asking ImmigrantConnect) (Some (js "t0k3n"))
                   [replies true question_42; replies true all_questions])
                (js "a, b"))
      as (_ & _ & _ & _ & Htags & _); [reflexivity|reflexivity|].
    exact Htags.
  - destruct (handleCreateQuestion_tags scripted None QAPlatform
                (browser (asking QAPlatform) (Some (js "t0k3n"))
                   [replies true question_42; replies true all_questions])
                (js "a, b"))
      as (_ & _ & _ & _ & Htags & _); [reflexivity|reflexivity|].
    exact Htags.
Defined.

(** Ada votes question 42 up: the vote, the question, its answers, the
    list; the vote count shown is the one the backend returned. *)
Lemma handleVote_refetches_witness :
  let w := browser (reading ImmigrantConnect) (Some (js "t0k3n"))
             [replies true (VObj []); replies true question_42;
              replies true (VArr []); replies true all_questions] in
  let h := fun c => handleVote scripted None c (VNum 42) (str "question")
                      (VNum 1) in
  List.map url (requests (trace h w))
    = [js "http://localhost:8001/api/vote";
       js "http://localhost:8001/api/questions/42";
       js "http://localhost:8001/api/questions/42/answers";
       js "http://localhost:8001/api/questions"]
  /\ currentQuestion (app (after h w)) = question_42
  /\ questions (app (after h w)) = all_questions.
Proof.
  cbv zeta.
  destruct (handleVote_refetches scripted None
              (browser (reading ImmigrantConnect) (Some (js "t0k3n"))
                 [replies true (VObj []); replies true question_42;
                  replies true (VArr []); replies true all_questions])
              (VNum 42) (str "question") (VNum 1) (VNum 7) (VObj []))
    as (Hrequests & _ & Hstate); [reflexivity|reflexivity|reflexivity|].
  rewrite Hrequests, Hstate. repeat split.
Defined.

(** A vote refused by the backend, a fact-check that does not get through,
    and a profile request refused. *)
Lemma background_failures_witness :
  let refused := replies false (VObj [(js "detail", str "Not allowed")]) in
  let wv := browser (reading ImmigrantConnect) (Some (js "t0k3n")) [refused] in
  let wa := browser (reading ImmigrantConnect) (Some (js "t0k3n"))
              [replies true (VObj [(js "id", VNum 9)]); Rejected;
               replies true question_42; replies true (VArr [])] in
  let wu := browser (signed_in ImmigrantConnect) (Some (js "t0k3n"))
              [refused] in
  app (after (fun c => handleVote scripted None c (VNum 42) (str "question")
                         (VNum (-1))) wv) = app wv
  /\ List.filter (fun e => negb (is_fetch e))
       (trace (handleCreateAnswer scripted None ImmigrantConnect) wa)
     = [PreventDefault;
        ConsoleError (js "Fact-check failed:") (Native TypeError_fetch)]
  /\ localStorage_token (after (fetchUser scripted None) wu) = None
  /\ render (app (after (fetchUser scripted None) wu))
     = AuthScreen (js "login").
Proof.
  cbv zeta.
  destruct (background_failures scripted None
              (browser (reading ImmigrantConnect) (Some (js "t0k3n"))
                 [replies false (VObj [(js "detail", str "Not allowed")])])
              (browser (reading ImmigrantConnect) (Some (js "t0k3n"))
                 [replies true (VObj [(js "id", VNum 9)]); Rejected;
                  replies true question_42; replies true (VArr [])])
              (browser (reading ImmigrantConnect) (Some (js "t0k3n"))
                 [Rejected])
              (browser (signed_in ImmigrantConnect) (Some (js "t0k3n"))
                 [replies false (VObj [(js "detail", str "Not allowed")])])
              (reading ImmigrantConnect)
              (VNum 42) (str "Where to apply?") (VObj [(js "id", VNum 9)])
              (VNum 9) (VObj [(js "id", VNum 9)]) (VNum 9)
              (str "Where to apply?")
              (VNum 7) (VNum 42) (str "question") (VNum (-1))
              (Error (js "Not allowed")) (Native TypeError_fetch)
              (Native TypeError_fetch) (Error (js "Not allowed")))
    as ((_ & Hvote & _) & _ & (Hanswer & _) & (_ & Hstored & _ & Hrender));
    try reflexivity.
  rewrite Hvote, Hanswer, Hstored, Hrender. repeat split.
Defined.

(** A login that the backend refuses. *)
Lemma handleAuth_failure_witness :
  let w := browser (anonymous ImmigrantConnect) None
             [replies false (VObj [(js "detail", str "Incorrect password")])] in
  List.filter (fun e => negb (is_fetch e))
    (trace (handleAuth scripted None ImmigrantConnect) w)
    = [PreventDefault; Alert (Text (js "Incorrect password"))]
  /\ token (app (after (handleAuth scripted None ImmigrantConnect) w)) = VNull
  /\ localStorage_token (after (handleAuth scripted None ImmigrantConnect) w)
     = None
  /\ render (app (after (handleAuth scripted None ImmigrantConnect) w))
     = AuthScreen (js "login").
Proof.
  cbv zeta.
  destruct (handleAuth_failure scripted None ImmigrantConnect
              (browser (anonymous ImmigrantConnect) None
                 [replies false
                    (VObj [(js "detail", str "Incorrect password")])])
              (Error (js "Incorrect password")))
    as (Htrace & Htoken & Hstored & Hrender & _); [reflexivity|].
  rewrite Htrace, Htoken, Hstored, Hrender. repeat split.
Defined.

(** Ada says hello and the assistant answers; then the network is down and
    the second turn is the apology. *)
Lemma handleChatMessage_two_turns_witness :
  let w := browser (chatting QAPlatform) (Some (js "t0k3n"))
             [replies true (VObj [(js "response", str "Hello Ada")])] in
  let down := browser (chatting ImmigrantConnect) (Some (js "t0k3n")) [] in
  chatMessages (app (after (handleChatMessage scripted None QAPlatform) w))
    = [ {| text := str "hi"; sender := js "user" |};
        {| text := str "Welcome!"; sender := js "ai" |};
        {| text := str "hello"; sender := js "user" |};
        {| text := str "Hello Ada"; sender := js "ai" |} ]
  /\ chatInput (app (after (handleChatMessage scripted None QAPlatform) w))
     = []
  /\ chatMessages
       (app (after (handleChatMessage scripted None ImmigrantConnect) down))
     = [ {| text := str "hi"; sender := js "user" |};
         {| text := str "Welcome!"; sender := js "ai" |};
         {| text := str "hello"; sender := js "user" |};
         {| text := str "Sorry, I encountered an error. Please try again.";
            sender := js "ai" |} ].
Proof.
  cbv zeta.
  destruct (handleChatMessage_two_turns scripted None QAPlatform
              (browser (chatting QAPlatform) (Some (js "t0k3n"))
                 [replies true (VObj [(js "response", str "Hello Ada")])]))
    as (_ & Hinput & _ & Hsuccess & _); [reflexivity|reflexivity|].
  destruct (handleChatMessage_two_turns scripted None ImmigrantConnect
              (browser (chatting ImmigrantConnect) (Some (js "t0k3n")) []))
    as (_ & _ & _ & _ & Hfailure & _); [reflexivity|reflexivity|].
  rewrite (Hsuccess _ (str "Hello Ada") eq_refl eq_refl), Hinput,
    (Hfailure (Native TypeError_fetch) eq_refl).
  repeat split.
Defined.

(** A search box holding blanks, one holding ["visa help"], and one holding
    half of a surrogate pair. *)
Lemma handleSearch_requests_witness :
  let w1 := browser (searching QAPlatform "   ") (Some (js "t0k3n"))
              [replies true all_questions] in
  let w2 := browser (searching QAPlatform "visa help") (Some (js "t0k3n"))
              [replies true (VArr [])] in
  let w3 := browser (with_searchQuery (js "visa " ++ [0xDC00])
                       (signed_in QAPlatform))
              (Some (js "t0k3n")) [replies true (VArr [])] in
  List.map url (requests (trace (handleSearch scripted None) w1))
    = [js "http://localhost:8001/api/questions"]
  /\ questions (app (after (handleSearch scripted None) w1)) = all_questions
  /\ List.map url (requests (trace (handleSearch scripted None) w2))
     = [js "http://localhost:8001/api/search?q=visa%20help"]
  /\ questions (app (after (handleSearch scripted None) w2)) = VArr []
  /\ requests (trace (handleSearch scripted None) w3) = []
  /\ after (handleSearch scripted None) w3 = w3.
Proof.
  cbv zeta.
  destruct (handleSearch_requests scripted None
              (browser (searching QAPlatform "   ") (Some (js "t0k3n"))
                 [replies true all_questions])
              (browser (searching QAPlatform "visa help") (Some (js "t0k3n"))
                 [replies true (VArr [])])
              (browser (with_searchQuery (js "visa " ++ [0xDC00])
                          (signed_in QAPlatform))
                 (Some (js "t0k3n")) [replies true (VArr [])])
              (js "visa%20help"))
    as ((Hlist & _ & _ & Hall) & (Hsearch & _ & _ & Hresults)
        & (Hnothing & _ & Hkept));
    [reflexivity|reflexivity|reflexivity|reflexivity|reflexivity|].
  rewrite Hlist, Hsearch, (Hall all_questions eq_refl),
    (Hresults (VArr []) eq_refl), Hnothing, Hkept.
  repeat split.
Defined.

(** C6 as it is stated fails for a query that is not blank and has no
    URL-encoded form: with ["a"] followed by the high half of a surrogate
    pair in the search box, and a backend that would answer the next
    request with a list of one question, [handleSearch] sends no request at
    all, so nothing is fetched from [/api/search?q=...], and the question
    list is not replaced by any results: it is the list of before. *)
Lemma handleSearch_unpaired_surrogate :
  let w := browser (with_searchQuery (js "a" ++ [0xD83D])
                      (signed_in QAPlatform))
             (Some (js "t0k3n")) [replies true all_questions] in
  blank (searchQuery (app w)) = false
  /\ trim (searchQuery (app w)) <> []
  /\ requests (trace (handleSearch scripted None) w) = []
  /\ ~ (exists rq, In rq (requests (trace (handleSearch scripted None) w)))
  /\ ~ (exists encoded,
          requests (trace (handleSearch scripted None) w)
          = [search_request None (app w) encoded])
  /\ outcome_of scripted w (list_request None (app w)) = inr all_questions
  /\ questions (app (after (handleSearch scripted None) w))
     = questions (app w)
  /\ questions (app (after (handleSearch scripted None) w)) <> all_questions.
Proof.
  cbv zeta.
  split; [reflexivity|]. split; [discriminate|]. split; [reflexivity|].
  split; [intros (rq & []) |].
  split; [intros (encoded & Hsent); discriminate Hsent|].
  split; [reflexivity|]. split; [reflexivity|]. discriminate.
Qed.

(** Ada logs out and in again: the panel shows what was said before. *)
Example transcript_survives :
  let w := browser (with_isChatOpen false (chatting ImmigrantConnect))
             (Some (js "t0k3n"))
             [replies true all_questions;
              replies true (VObj [(js "access_token", str "n3w")]);
              replies true (VObj [(js "id", VNum 7)]);
              replies true all_questions] in
  render (app (world (log_out_and_in scripted None ImmigrantConnect
                        (js "ada") (js "pw") w)))
  = MainScreen (QuestionList all_questions)
      (Some [ {| text := str "hi"; sender := js "user" |};
              {| text := str "Welcome!"; sender := js "ai" |} ]).
Proof. reflexivity. Qed.

(** Ada searches, empties the search box and searches again: the list is
    the full one again. *)
Example clearing_the_query_restores_the_list :
  let w := browser (searching QAPlatform "visa") (Some (js "t0k3n"))
             [replies true (VArr []); replies true all_questions] in
  let w1 := world (on scripted None (handleSearch scripted None) w) in
  let w2 := world (on scripted None (onChange_searchQuery (js "")) w1) in
  let w3 := world (on scripted None (handleSearch scripted None) w2) in
  questions (app w1) = VArr []
  /\ questions (app w3) = all_questions
  /\ List.map url
       (requests (events (on scripted None (handleSearch scripted None) w2)))
     = [js "http://localhost:8001/api/questions"].
Proof. repeat split. Qed.

(** A query with an unpaired surrogate has no URL-encoded form: the
    [URIError] is logged and nothing is sent. *)
Example handleSearch_malformed_query :
  let w := browser (with_searchQuery (js "a" ++ [0xD83D]) (signed_in QAPlatform))
             (Some (js "t0k3n")) [replies true all_questions] in
  trace (handleSearch scripted None) w
    = [ConsoleError (js "Search failed:") (Native URIError_malformed)]
  /\ after (handleSearch scripted None) w = w.
Proof. split; reflexivity. Qed.

(** The assistant cannot be reached: the apology is the second turn. *)
Example handleChatMessage_fallback :
  let w := browser (chatting ImmigrantConnect) (Some (js "t0k3n")) [] in
  chatMessages (app (after (handleChatMessage scripted None ImmigrantConnect) w))
    = [ {| text := str "hi"; sender := js "user" |};
        {| text := str "Welcome!"; sender := js "ai" |};
        {| text := str "hello"; sender := js "user" |};
        {| text := str "Sorry, I encountered an error. Please try again.";
           sender := js "ai" |} ].
Proof. reflexivity. Qed.

(** A detail that is a list of validation errors is shown as the string of
    that list. *)
Example handleAuth_detail_list :
  let w := browser (anonymous ImmigrantConnect) None
             [replies false
                (VObj [(js "detail",
                        VArr [VObj [(js "msg", str "field required")]])])] in
  List.filter (fun e => negb (is_fetch e))
    (trace (handleAuth scripted None ImmigrantConnect) w)
    = [PreventDefault; Alert (Text (js "[object Object]"))].
Proof. reflexivity. Qed.

(** A successful login stores the token and leaves the authentication
    screen. *)
Example handleAuth_success :
  let w := browser (anonymous QAPlatform) None
             [replies true (VObj [(js "access_token", str "n3w")]);
              replies true (VObj [(js "id", VNum 7)]);
              replies true all_questions] in
  let w' := world (on scripted None (handleAuth scripted None QAPlatform) w) in
  token (app w') = str "n3w"
  /\ localStorage_token w' = Some (js "n3w")
  /\ user (app w') = VObj [(js "id", VNum 7)]
  /\ render (app w') = MainScreen (QuestionList all_questions) None.
Proof. repeat split. Qed.

(* ================================================================== *)
(** ** The further theorems at work *)

(** A search leaves Ada's token where it is. *)
Lemma only_auth_and_logout_write_the_token_witness :
  let w := browser (searching QAPlatform "visa") (Some (js "t0k3n"))
             [replies false (VObj [])] in
  token (app (after (handler_of scripted None QAPlatform Search) w))
    = str "t0k3n"
  /\ localStorage_token (after (handler_of scripted None QAPlatform Search) w)
     = Some (js "t0k3n").
Proof.
  cbv zeta.
  destruct (only_auth_and_logout_write_the_token scripted None QAPlatform
              Search
              (browser (searching QAPlatform "visa") (Some (js "t0k3n"))
                 [replies false (VObj [])]))
    as (Htoken & Hstored); [reflexivity|].
  rewrite Htoken, Hstored. split; reflexivity.
Defined.

(** The page starts with a stored token; Ada logs out, logs in again and
    votes. *)
Lemma stored_token_mirrors_token_witness :
  let w := browser (initialState QAPlatform (Some (js "t0k3n")))
             (Some (js "t0k3n"))
             [replies true all_questions;
              replies true (VObj [(js "access_token", str "n3w")])] in
  session_mirrored
    (world (session scripted None QAPlatform
              [Logout; TypeLogin "username" (js "ada"); SubmitAuth;
               Vote (VNum 42) (str "question") (VNum 1)] w)).
Proof.
  cbv zeta.
  apply (stored_token_mirrors_token scripted None QAPlatform
           [Logout; TypeLogin "username" (js "ada"); SubmitAuth;
            Vote (VNum 42) (str "question") (VNum 1)]
           (browser (initialState QAPlatform (Some (js "t0k3n")))
              (Some (js "t0k3n"))
              [replies true all_questions;
               replies true (VObj [(js "access_token", str "n3w")])])).
  reflexivity.
Defined.

(** Ada logs in, but her profile is refused. *)
Lemma login_opens_the_session_witness :
  let w := browser (anonymous QAPlatform) None
             [replies true (VObj [(js "access_token", str "n3w")]);
              replies false (VObj [(js "detail", str "Not allowed")]);
              replies true all_questions; replies true all_questions] in
  List.map url
    (requests (events (on scripted None (handleAuth scripted None QAPlatform) w)))
    = [js "http://localhost:8001/api/login";
       js "http://localhost:8001/api/me";
       js "http://localhost:8001/api/questions";
       js "http://localhost:8001/api/questions"]
  /\ localStorage_token (after (handleAuth scripted None QAPlatform) w)
     = Some (js "n3w").
Proof.
  cbv zeta.
  destruct (login_opens_the_session scripted None QAPlatform
              (browser (anonymous QAPlatform) None
                 [replies true (VObj [(js "access_token", str "n3w")]);
                  replies false (VObj [(js "detail", str "Not allowed")]);
                  replies true all_questions; replies true all_questions])
              (VObj [(js "access_token", str "n3w")]) (js "n3w"))
    as (_ & _ & Hstored & _ & _ & _ & _ & Hrequests);
    [reflexivity|reflexivity|reflexivity|reflexivity|].
  rewrite Hrequests, Hstored. split; reflexivity.
Defined.

(** The backend answers the login with an empty object. *)
Lemma login_without_access_token_witness :
  let w := browser (anonymous ImmigrantConnect) None [replies true (VObj [])] in
  localStorage_token (after (handleAuth scripted None ImmigrantConnect) w)
    = Some (js "undefined")
  /\ render (app (after (handleAuth scripted None ImmigrantConnect) w))
     = AuthScreen (js "login").
Proof.
  cbv zeta.
  destruct (login_without_access_token scripted None ImmigrantConnect
              (browser (anonymous ImmigrantConnect) None
                 [replies true (VObj [])]) [])
    as (_ & _ & Hrender & Hstored & _);
    [reflexivity|reflexivity|reflexivity|].
  rewrite Hrender, Hstored. split; reflexivity.
Defined.

(** Ada's question is refused: the form keeps what she typed. *)
Lemma handleCreateQuestion_outcomes_witness :
  let w := browser (asking ImmigrantConnect) (Some (js "t0k3n"))
             [replies false (VObj [(js "detail", str "Title too short")])] in
  lookup (js "title")
    (questionData
       (app (after (handleCreateQuestion scripted None ImmigrantConnect) w)))
    = str "Work permit"
  /\ loading
       (app (after (handleCreateQuestion scripted None ImmigrantConnect) w))
     = false.
Proof.
  cbv zeta.
  destruct (handleCreateQuestion_outcomes scripted None ImmigrantConnect
              (browser (asking ImmigrantConnect) (Some (js "t0k3n"))
                 [replies false
                    (VObj [(js "detail", str "Title too short")])])
              (js "a, b"))
    as (Hloading & _ & _ & Hform & _); [reflexivity|reflexivity|].
  rewrite Hform, Hloading. split; reflexivity.
Defined.

(** Ada's answer is refused: the box keeps her text. *)
Lemma handleCreateAnswer_refused_witness :
  let w := browser (reading ImmigrantConnect) (Some (js "t0k3n"))
             [replies false (VObj [(js "detail", str "Too short")])] in
  answerContent
    (app (after (handleCreateAnswer scripted None ImmigrantConnect) w))
    = js "At the consulate."
  /\ List.length
       (requests (trace (handleCreateAnswer scripted None ImmigrantConnect) w))
     = 1%nat.
Proof.
  cbv zeta.
  destruct (handleCreateAnswer_refused scripted None ImmigrantConnect
              (browser (reading ImmigrantConnect) (Some (js "t0k3n"))
                 [replies false (VObj [(js "detail", str "Too short")])])
              (VNum 42) (Error (js "Too short")))
    as (Htrace & _ & Hanswer & _);
    [reflexivity|reflexivity|reflexivity|reflexivity|].
  rewrite Htrace, Hanswer. split; reflexivity.
Defined.

(** Ada's answer is accepted as answer 9; for another answer the backend
    replies [null]. *)
Lemma handleCreateAnswer_accepted_witness :
  let w := browser (reading ImmigrantConnect) (Some (js "t0k3n"))
             [replies true (VObj [(js "id", VNum 9)]); replies true (VObj []);
              replies true question_42; replies true (VArr [])] in
  let w0 := browser (reading ImmigrantConnect) (Some (js "t0k3n"))
              [replies true VNull;
               replies true question_42; replies true (VArr [])] in
  List.map url
    (requests (trace (handleCreateAnswer scripted None ImmigrantConnect) w))
    = [js "http://localhost:8001/api/questions/42/answers";
       js "http://localhost:8001/api/fact-check-answer";
       js "http://localhost:8001/api/questions/42";
       js "http://localhost:8001/api/questions/42/answers"]
  /\ answerContent
       (app (after (handleCreateAnswer scripted None ImmigrantConnect) w))
     = []
  /\ List.map url
       (requests (trace (handleCreateAnswer scripted None ImmigrantConnect) w0))
     = [js "http://localhost:8001/api/questions/42/answers";
        js "http://localhost:8001/api/questions/42";
        js "http://localhost:8001/api/questions/42/answers"]
  /\ answerContent
       (app (after (handleCreateAnswer scripted None ImmigrantConnect) w0))
     = [].
Proof.
  cbv zeta.
  destruct (handleCreateAnswer_accepted scripted None ImmigrantConnect
              (browser (reading ImmigrantConnect) (Some (js "t0k3n"))
                 [replies true (VObj [(js "id", VNum 9)]);
                  replies true (VObj []);
                  replies true question_42; replies true (VArr [])])
              (VNum 42) (str "Where to apply?") (VObj [(js "id", VNum 9)]))
    as (Hrequests & _ & _ & Hanswer & _); try reflexivity.
  destruct (handleCreateAnswer_accepted scripted None ImmigrantConnect
              (browser (reading ImmigrantConnect) (Some (js "t0k3n"))
                 [replies true VNull;
                  replies true question_42; replies true (VArr [])])
              (VNum 42) (str "Where to apply?") VNull)
    as (Hrequests0 & _ & _ & Hanswer0 & _); try reflexivity.
  rewrite Hrequests, Hanswer, Hrequests0, Hanswer0. repeat split.
Defined.

(** The page has a token but the profile has not arrived. *)
Lemma handleVote_without_profile_witness :
  let w := browser (initialState QAPlatform (Some (js "t0k3n")))
             (Some (js "t0k3n")) [replies true (VObj [])] in
  requests (trace (fun c => handleVote scripted None c (VNum 42)
                              (str "question") (VNum 1)) w) = []
  /\ after (fun c => handleVote scripted None c (VNum 42) (str "question")
                       (VNum 1)) w = w.
Proof.
  cbv zeta.
  destruct (handleVote_without_profile scripted None
              (browser (initialState QAPlatform (Some (js "t0k3n")))
                 (Some (js "t0k3n")) [replies true (VObj [])])
              (VNum 42) (str "question") (VNum 1))
    as (Htrace & Hworld); [reflexivity|reflexivity|].
  rewrite Htrace, Hworld. split; reflexivity.
Defined.

(** The network is down. *)
Lemma failed_refresh_keeps_the_list_witness :
  let listed := with_questions all_questions (searching QAPlatform "  ") in
  let found := with_questions all_questions (searching QAPlatform "visa") in
  let opened := with_questions all_questions (reading QAPlatform) in
  questions (app (after (handleSearch scripted None)
                    (browser listed (Some (js "t0k3n")) []))) = all_questions
  /\ questions (app (after (handleSearch scripted None)
                       (browser found (Some (js "t0k3n")) []))) = all_questions
  /\ render (app (after (backToQuestions scripted None)
                    (browser opened (Some (js "t0k3n")) [])))
     = MainScreen (QuestionList all_questions) None.
Proof.
  cbv zeta.
  destruct (failed_refresh_keeps_the_list scripted None
              (browser (with_questions all_questions
                          (searching QAPlatform "  "))
                 (Some (js "t0k3n")) [])
              (browser (with_questions all_questions
                          (searching QAPlatform "visa"))
                 (Some (js "t0k3n")) [])
              (browser (with_questions all_questions (reading QAPlatform))
                 (Some (js "t0k3n")) [])
              (js "visa") (Native TypeError_fetch) (Native TypeError_fetch)
              (Native TypeError_fetch))
    as ((Hblank & _) & (Hquery & _) & (Hback & _)); try reflexivity.
  rewrite Hblank, Hquery, Hback. repeat split.
Defined.

(** A query that looks like more parameters. *)
Lemma search_query_stays_in_its_parameter_witness :
  let w := browser (searching QAPlatform "a&b=c #d") (Some (js "t0k3n")) [] in
  exists rq,
    requests (trace (handleSearch scripted None) w) = [rq]
    /\ url rq = js "http://localhost:8001/api/search?q=a%26b%3Dc%20%23d".
Proof.
  cbv zeta.
  destruct (search_query_stays_in_its_parameter scripted None
              (browser (searching QAPlatform "a&b=c #d") (Some (js "t0k3n")) [])
              (js "a%26b%3Dc%20%23d"))
    as (rq & Hrequests & Hurl & _); [reflexivity|reflexivity|].
  exists rq. split; [exact Hrequests|exact Hurl].
Defined.

(** Someone types other credentials over Ada's. *)
Lemma typed_credentials_are_sent_witness :
  let w := browser (anonymous QAPlatform) None ([] : Script) in
  let w1 := after (onChange_loginData "username" (js "bob")) w in
  let w2 := after (onChange_loginData "password" (js "s3cret")) w1 in
  exists data,
    request_body (auth_request None (app w2))
      = Some (JSON_stringify (VObj data))
    /\ lookup (js "username") data = str "bob"
    /\ lookup (js "password") data = str "s3cret"
    /\ List.map fst data = [js "username"; js "password"].
Proof.
  cbv zeta.
  destruct (typed_credentials_are_sent None
              (browser (anonymous QAPlatform) None ([] : Script))
              (js "bob") (js "s3cret"))
    as (data & Hbody & _ & Huser & Hpass & Hkeys & _);
    [reflexivity|reflexivity|reflexivity|].
  exists data. repeat split; assumption.
Defined.

(** Ada has chosen a category, so the button is enabled. *)
Lemma enabled_button_sends_no_empty_tag_witness :
  exists items,
    member (question_body ImmigrantConnect
              (questionData (asking ImmigrantConnect)) (tags_of (js " a,, b ,")))
           (js "tags") = Some (VArr items)
    /\ Forall (fun t => truthy t = true) items.
Proof.
  apply (enabled_button_sends_no_empty_tag ImmigrantConnect
           (asking ImmigrantConnect) (js " a,, b ,")).
  reflexivity.
Defined.

(** The page starts with a token that the backend no longer knows, and
    with one that it knows. *)
Lemma page_start_witness :
  let w := browser (initialState ImmigrantConnect (Some (js "0ld")))
             (Some (js "0ld"))
             [replies false (VObj [(js "detail", str "Expired")]);
              replies true all_questions] in
  let w1 := browser (initialState QAPlatform (Some (js "t0k3n")))
              (Some (js "t0k3n"))
              [replies true (VObj [(js "id", VNum 7)]);
               replies true all_questions] in
  localStorage_token (world (dispatch (useEffect_token scripted None) w)) = None
  /\ render (app (world (dispatch (useEffect_token scripted None) w)))
     = AuthScreen (js "login")
  /\ user (app (world (dispatch (useEffect_token scripted None) w1)))
     = VObj [(js "id", VNum 7)]
  /\ localStorage_token (world (dispatch (useEffect_token scripted None) w1))
     = Some (js "t0k3n")
  /\ token (app (world (dispatch (useEffect_token scripted None) w1)))
     = str "t0k3n".
Proof.
  cbv zeta.
  destruct (page_start scripted None ImmigrantConnect (js "0ld")
              [replies false (VObj [(js "detail", str "Expired")]);
               replies true all_questions] [])
    as (_ & _ & _ & (Hstored & Hscreen) & _); [reflexivity|].
  destruct (page_start scripted None QAPlatform (js "t0k3n")
              [replies true (VObj [(js "id", VNum 7)]);
               replies true all_questions] [])
    as (_ & _ & _ & (Huser & Hkept & Htoken) & _); [reflexivity|].
  split; [exact Hstored|]. split; [exact Hscreen|].
  split; [exact Huser|]. split; [exact Hkept|exact Htoken].
Defined.
